(** * Document lifecycle of the Truuth portal

    A shallow embedding of [api/src/routes/documents.ts] (the upload,
    status and result handlers with their helper
    [submitDocumentForVerification]) and of the pure validators of
    [lib/truuth.ts], together with the properties of the document state
    machine.

    The handlers are asynchronous procedures over a Prisma table and three
    gateway calls.  They are embedded in a small state-and-exception monad:
    the state is the [documents] table plus a log of every store access and
    gateway call, an exception is a JavaScript [Error]. *)

From stdpp Require Import base option list strings gmap fin_maps sorting.
From Stdlib Require Import NArith.

Local Open Scope string_scope.

(** ** Data model *)

(** [DocumentType] and [DocumentStatus] are the two Prisma enums the
    handlers import from [@prisma/client]. *)
Inductive DocumentType := PASSPORT | DRIVERS_LICENCE | RESUME.

Inductive DocumentStatus :=
| PENDING | CLASSIFYING | CLASSIFICATION_FAILED | SUBMITTING
| PROCESSING | DONE | FAILED.

#[global] Instance DocumentType_eq_dec : EqDecision DocumentType.
Proof. solve_decision. Defined.

#[global] Instance DocumentStatus_eq_dec : EqDecision DocumentStatus.
Proof. solve_decision. Defined.

Definition DocumentType_code (t : DocumentType) : positive :=
  match t with PASSPORT => 1 | DRIVERS_LICENCE => 2 | RESUME => 3 end%positive.

Definition DocumentType_of_code (p : positive) : option DocumentType :=
  match p with
  | 1 => Some PASSPORT | 2 => Some DRIVERS_LICENCE | 3 => Some RESUME
  | _ => None
  end%positive.

#[global] Instance DocumentType_countable : Countable DocumentType.
Proof.
  refine (Build_Countable _ _ DocumentType_code DocumentType_of_code _).
  by intros [].
Defined.

(** The string a [DocumentType] is written as in a request body. *)
Definition DocumentType_name (t : DocumentType) : string :=
  match t with
  | PASSPORT => "PASSPORT"
  | DRIVERS_LICENCE => "DRIVERS_LICENCE"
  | RESUME => "RESUME"
  end.

(** [documentType as DocumentType], after the membership test in
    ['PASSPORT', 'DRIVERS_LICENCE', 'RESUME']. *)
Definition parse_DocumentType (s : string) : option DocumentType :=
  if decide (s = "PASSPORT") then Some PASSPORT
  else if decide (s = "DRIVERS_LICENCE") then Some DRIVERS_LICENCE
  else if decide (s = "RESUME") then Some RESUME
  else None.

(** JSON values, the content of the two [Json] columns. *)
#[local] Unset Elimination Schemes.
Inductive Json :=
| JNull
| JBool (b : bool)
| JNum (n : Z)
| JStr (s : string)
| JArr (items : list Json)
| JObj (fields : list (string * Json)).
#[local] Set Elimination Schemes.

(** [o.key] on a JSON value: the first field of that name. *)
Definition json_field (key : string) (j : Json) : option Json :=
  match j with
  | JObj fields => snd <$> find (λ kv, bool_decide (kv.1 = key)) fields
  | _ => None
  end.

(** [ClassificationResult] of [lib/truuth.ts]: both parts are optional. *)
Record CodeName := { code : string; name : string }.

Record ClassificationResult := {
  country : option CodeName;
  documentType : option CodeName;
}.

Record VerifySubmitResult := {
  submit_documentVerifyId : string;
  submit_status : string;
}.

(** The status union ['PROCESSING' | 'DONE' | 'FAILED'] of
    [VerifyStatusResult]. *)
Inductive VerifyStatus := VS_PROCESSING | VS_DONE | VS_FAILED.

Record VerifyStatusResult := {
  result_documentVerifyId : string;
  result_status : VerifyStatus;
  result_rest : list (string * Json);   (* [key: string]: unknown *)
}.

Definition VerifyStatus_name (s : VerifyStatus) : string :=
  match s with
  | VS_PROCESSING => "PROCESSING" | VS_DONE => "DONE" | VS_FAILED => "FAILED"
  end.

(** A poll status written into the [status] column. *)
Definition VerifyStatus_to_status (s : VerifyStatus) : DocumentStatus :=
  match s with
  | VS_PROCESSING => PROCESSING | VS_DONE => DONE | VS_FAILED => FAILED
  end.

Definition CodeName_to_json (c : CodeName) : Json :=
  JObj [("code", JStr (code c)); ("name", JStr (name c))].

(** [classification as object]: absent parts are absent keys. *)
Definition ClassificationResult_to_json (c : ClassificationResult) : Json :=
  JObj (match country c with
        | Some k => [("country", CodeName_to_json k)] | None => []
        end ++
        match documentType c with
        | Some k => [("documentType", CodeName_to_json k)] | None => []
        end).

(** [result as object]. *)
Definition VerifyStatusResult_to_json (r : VerifyStatusResult) : Json :=
  JObj (("documentVerifyId", JStr (result_documentVerifyId r)) ::
        ("status", JStr (VerifyStatus_name (result_status r))) ::
        result_rest r).

(** A row of the [documents] table.  The Prisma schema is not part of the
    sources at hand; the columns are those the handlers read and write,
    with [createdAt] and [updatedAt] as the result endpoint selects them.
    The columns [userId] and [documentType] are the key the row is stored
    under (see [Store]), so that the unique index [userId_documentType]
    holds by construction; [doc_id] is the column [id]. *)
Record Document := {
  doc_id : string;
  fileName : string;
  mimeType : string;
  status : DocumentStatus;
  documentVerifyId : option string;
  errorMessage : option string;
  verificationResult : option Json;
  classificationResult : option Json;
  createdAt : N;
  updatedAt : N;
}.

(** The table, keyed by its unique index [userId_documentType]. *)
Abbreviation Store := (gmap (string * DocumentType) Document).

(** A JavaScript [Error]. *)
Record JsError := { message : string }.

(** The uploaded file as multer's memory storage hands it over;
    [buffer_base64] is [file.buffer.toString('base64')]. *)
Record File := {
  originalname : string;
  mimetype : string;
  file_size : N;
  buffer_base64 : string;
}.

(** What a request meets outside the process: the answers of the three
    gateway functions of [lib/truuth.ts] (each returns or throws), the
    identifier the store gives a new row, and the clock. *)
Record Env := {
  classifyDocument : string → string → JsError + ClassificationResult;
  submitForVerification :
    string → string → string → string → string → JsError + VerifySubmitResult;
  getVerificationResult : string → JsError + VerifyStatusResult;
  newId : string;
  now : N;
}.

(** ** The monad of a request handler *)

(** Every store access and gateway call of a request, in the order made. *)
Inductive Event :=
| DbFindUnique (userId : string) (documentType : DocumentType)
| DbFindById (id : string)
| DbFindFirst (id userId : string)
| DbUpsert (userId : string) (documentType : DocumentType)
| DbUpdate (id : string)
| CallClassify
| CallSubmit (externalRefId : string)
| CallPoll (documentVerifyId : string).

Record World := { db : Store; trace : list Event }.

Definition M (A : Type) : Type := World → (JsError + A) * World.

#[global] Instance M_ret : MRet M := λ A a w, (inr a, w).

#[global] Instance M_bind : MBind M := λ A B f m w,
  match m w with
  | (inr a, w') => f a w'
  | (inl e, w') => (inl e, w')
  end.

Definition throw {A} (e : JsError) : M A := λ w, (inl e, w).

(** [try { body } catch (error) { handler error }]. *)
Definition try_catch {A} (body : M A) (handler : JsError → M A) : M A := λ w,
  match body w with
  | (inr a, w') => (inr a, w')
  | (inl e, w') => handler e w'
  end.

Definition emit (ev : Event) : M unit := λ w,
  (inr (), {| db := db w; trace := trace w ++ [ev] |}).

Definition get_db : M Store := λ w, (inr (db w), w).

Definition put_db (s : Store) : M unit := λ w,
  (inr (), {| db := s; trace := trace w |}).

(** An awaited gateway call: its answer is returned or thrown. *)
Definition await {A} (ev : Event) (answer : JsError + A) : M A :=
  emit ev;; match answer with inl e => throw e | inr a => mret a end.

(** ** The Prisma operations the handlers use *)

(** The [data] object of an [update]: a column that is not named keeps its
    value, a nullable column can be set to [null]. *)
Record Data := {
  data_fileName : option string;
  data_mimeType : option string;
  data_status : option DocumentStatus;
  data_errorMessage : option (option string);
  data_documentVerifyId : option (option string);
  data_verificationResult : option (option Json);
  data_classificationResult : option (option Json);
}.

(** A row after an update with [dt] at time [now]: the named columns are
    set, [updatedAt] is the time of the write. *)
Definition apply_data (dt : Data) (now : N) (d : Document) : Document :=
  {| doc_id := doc_id d;
     fileName := default (fileName d) (data_fileName dt);
     mimeType := default (mimeType d) (data_mimeType dt);
     status := default (status d) (data_status dt);
     documentVerifyId := default (documentVerifyId d) (data_documentVerifyId dt);
     errorMessage := default (errorMessage d) (data_errorMessage dt);
     verificationResult :=
       default (verificationResult d) (data_verificationResult dt);
     classificationResult :=
       default (classificationResult d) (data_classificationResult dt);
     createdAt := createdAt d;
     updatedAt := now |}.

(** The [create] object of the two upserts: the columns it does not name
    are [null]. *)
Definition create_document (env : Env) (file_name mime : string)
    (st : DocumentStatus) : Document :=
  {| doc_id := newId env; fileName := file_name; mimeType := mime;
     status := st; documentVerifyId := None; errorMessage := None;
     verificationResult := None; classificationResult := None;
     createdAt := now env; updatedAt := now env |}.

(** The rows whose column [id] is [i]. *)
Definition rows_with_id (i : string) (s : Store)
    : list ((string * DocumentType) * Document) :=
  filter (λ kv, doc_id kv.2 = i) (map_to_list s).

Definition find_by_id (i : string) (s : Store)
    : option ((string * DocumentType) * Document) :=
  head (rows_with_id i s).

(** [where: { id: i, userId: uid }]: a user has one row per document type
    at most, which are looked at in turn. *)
Definition rows_of_user (uid : string) (s : Store)
    : list (DocumentType * Document) :=
  omap (λ t, pair t <$> s !! (uid, t)) [PASSPORT; DRIVERS_LICENCE; RESUME].

Definition find_first (i uid : string) (s : Store)
    : option (DocumentType * Document) :=
  find (λ td, bool_decide (doc_id td.2 = i)) (rows_of_user uid s).

(** [UPDATE documents SET ... WHERE id = i]. *)
Definition update_where_id (i : string) (dt : Data) (now : N) (s : Store)
    : Store :=
  (λ d, if decide (doc_id d = i) then apply_data dt now d else d) <$> s.

Definition findUnique (uid : string) (ty : DocumentType)
    : M (option Document) :=
  emit (DbFindUnique uid ty);; s ← get_db; mret (s !! (uid, ty)).

Definition findUniqueById (i : string)
    : M (option ((string * DocumentType) * Document)) :=
  emit (DbFindById i);; s ← get_db; mret (find_by_id i s).

Definition findFirst (i uid : string) : M (option (DocumentType * Document)) :=
  emit (DbFindFirst i uid);; s ← get_db; mret (find_first i uid s).

(** [prisma.document.upsert]: the row under the key is updated when there
    is one and created otherwise; the row as stored is returned. *)
Definition upsert (env : Env) (uid : string) (ty : DocumentType)
    (update_data : Data) (create : Document) : M Document :=
  emit (DbUpsert uid ty);;
  s ← get_db;
  let d := match s !! (uid, ty) with
           | Some old => apply_data update_data (now env) old
           | None => create
           end in
  put_db (<[(uid, ty) := d]> s);;
  mret d.

(** [prisma.document.update] with [where: { id: i }]: throws when no row
    has that id. *)
Definition update (env : Env) (i : string) (dt : Data) : M unit :=
  emit (DbUpdate i);;
  s ← get_db;
  if find_by_id i s is Some _
  then put_db (update_where_id i dt (now env) s)
  else throw {| message := "Record to update not found." |}.

(** ** Responses *)

(** The [document] object of an upload response.  [updatedDoc?.x] is
    [undefined] when the row is not found; the key [documentVerifyId] is
    left out by the branch that skips verification. *)
Record DocumentSummary := {
  sum_id : option string;
  sum_documentType : option DocumentType;
  sum_fileName : option string;
  sum_status : option DocumentStatus;
  sum_documentVerifyId : option (option string);
}.

(** The columns the result endpoint selects. *)
Record DocumentResult := {
  res_id : string;
  res_documentType : DocumentType;
  res_fileName : string;
  res_status : DocumentStatus;
  res_verificationResult : option Json;
  res_classificationResult : option Json;
  res_createdAt : N;
  res_updatedAt : N;
}.

Inductive Body :=
| ErrorBody (error : string)
| ClassificationErrorBody (error : string) (classification : ClassificationResult)
| UploadBody (msg : string) (document : DocumentSummary)
| StatusBody (id : string) (st : DocumentStatus) (hasResult : bool)
| ResultBody (document : DocumentResult).

(** [res.status(c).json(b)]; [res.json(b)] alone answers 200. *)
Record Response := { http_status : nat; body : Body }.

Definition summary_of (with_verify_id : bool)
    (updatedDoc : option ((string * DocumentType) * Document))
    : DocumentSummary :=
  {| sum_id := doc_id ∘ snd <$> updatedDoc;
     sum_documentType := snd ∘ fst <$> updatedDoc;
     sum_fileName := fileName ∘ snd <$> updatedDoc;
     sum_status := status ∘ snd <$> updatedDoc;
     sum_documentVerifyId :=
       if with_verify_id then documentVerifyId ∘ snd <$> updatedDoc
       else None |}.

Definition select_result (ty : DocumentType) (d : Document) : DocumentResult :=
  {| res_id := doc_id d; res_documentType := ty; res_fileName := fileName d;
     res_status := status d;
     res_verificationResult := verificationResult d;
     res_classificationResult := classificationResult d;
     res_createdAt := createdAt d; res_updatedAt := updatedAt d |}.

(** ** Validators of [lib/truuth.ts] and helpers of [documents.ts] *)

(** [result.country?.code === 'PHL' && result.documentType?.code === 'PASSPORT'] *)
Definition isValidPhilippinesPassport (result : ClassificationResult) : bool :=
  bool_decide (code <$> country result = Some "PHL") &&
  bool_decide (code <$> documentType result = Some "PASSPORT").

Definition isValidPhilippinesDriversLicence (result : ClassificationResult)
    : bool :=
  bool_decide (code <$> country result = Some "PHL") &&
  bool_decide (code <$> documentType result = Some "DRIVERS_LICENCE").

(** [x || fallback] on an optional string: [undefined] and the empty
    string are falsy. *)
Definition js_or (x : option string) (fallback : string) : string :=
  match x with
  | Some s => if decide (s = "") then fallback else s
  | None => fallback
  end.

(** A value used as a condition: [null] and the empty string are falsy. *)
Definition truthy (x : option string) : bool :=
  match x with
  | Some s => negb (bool_decide (s = ""))
  | None => false
  end.

Definition getDocumentDescription (classification : ClassificationResult)
    : string :=
  let country := js_or (name <$> country classification) "Unknown Country" in
  let docType :=
    js_or (name <$> documentType classification) "Unknown Document" in
  country ++ " " ++ docType.

(** [s.includes(sub)]. *)
Fixpoint includes (s sub : string) : bool :=
  String.prefix sub s ||
  match s with
  | EmptyString => false
  | String _ rest => includes rest sub
  end.

(** [fileFilter] of the multer configuration and its size limit: what the
    middleware lets through to the upload handler. *)
Definition allowedMimes : list string :=
  ["image/jpeg"; "image/png"; "image/jpg"; "application/pdf"].

Definition fileFilter (file : File) : bool :=
  bool_decide (mimetype file ∈ allowedMimes).

Definition fileSizeLimit : N := 10 * 1024 * 1024.

(** The media types of an identity document. *)
Definition imageMimes : list string :=
  ["image/jpeg"; "image/png"; "image/jpg"].

Definition is_id_document (docType : DocumentType) : bool :=
  bool_decide (docType = PASSPORT) || bool_decide (docType = DRIVERS_LICENCE).

Definition reply (c : nat) (b : Body) : Response :=
  {| http_status := c; body := b |}.

(** The [data] objects of the updates, in the order the handlers make
    them. *)

(** [{ status: 'SUBMITTING' }] *)
Definition submitting_data : Data :=
  {| data_fileName := None; data_mimeType := None;
     data_status := Some SUBMITTING; data_errorMessage := None;
     data_documentVerifyId := None; data_verificationResult := None;
     data_classificationResult := None |}.

(** [{ status: 'PROCESSING', documentVerifyId: result.documentVerifyId }] *)
Definition processing_data (result : VerifySubmitResult) : Data :=
  {| data_fileName := None; data_mimeType := None;
     data_status := Some PROCESSING; data_errorMessage := None;
     data_documentVerifyId := Some (Some (submit_documentVerifyId result));
     data_verificationResult := None; data_classificationResult := None |}.

Definition submit_failed_message : string :=
  "Failed to submit document for verification. Please try again.".

(** [{ status: 'FAILED', errorMessage: ... }] *)
Definition submit_failed_data : Data :=
  {| data_fileName := None; data_mimeType := None;
     data_status := Some FAILED;
     data_errorMessage := Some (Some submit_failed_message);
     data_documentVerifyId := None; data_verificationResult := None;
     data_classificationResult := None |}.

(** The [update] object of the upsert of an identity document. *)
Definition reupload_id_data (file : File) : Data :=
  {| data_fileName := Some (originalname file);
     data_mimeType := Some (mimetype file);
     data_status := Some CLASSIFYING;
     data_errorMessage := Some None;
     data_documentVerifyId := Some None;
     data_verificationResult := Some None;
     data_classificationResult := Some None |}.

(** The [update] object of the upsert of a résumé: it does not name
    [classificationResult]. *)
Definition reupload_resume_data (file : File) : Data :=
  {| data_fileName := Some (originalname file);
     data_mimeType := Some (mimetype file);
     data_status := Some SUBMITTING;
     data_errorMessage := Some None;
     data_documentVerifyId := Some None;
     data_verificationResult := Some None;
     data_classificationResult := None |}.

(** [{ classificationResult: classification as object }] *)
Definition classified_data (classification : ClassificationResult) : Data :=
  {| data_fileName := None; data_mimeType := None; data_status := None;
     data_errorMessage := None; data_documentVerifyId := None;
     data_verificationResult := None;
     data_classificationResult :=
       Some (Some (ClassificationResult_to_json classification)) |}.

Definition rejected_message (detectedType expectedType : string) : string :=
  "The uploaded document appears to be a " ++ detectedType ++
  ". Please upload a valid " ++ expectedType ++ ".".

(** [{ status: 'CLASSIFICATION_FAILED', errorMessage: ... }] of a
    classification the category's rule rejects. *)
Definition rejected_data (detectedType expectedType : string) : Data :=
  {| data_fileName := None; data_mimeType := None;
     data_status := Some CLASSIFICATION_FAILED;
     data_errorMessage := Some (Some (rejected_message detectedType expectedType));
     data_documentVerifyId := None; data_verificationResult := None;
     data_classificationResult := None |}.

Definition unclassifiable_message : string :=
  "Unable to classify the document. Please ensure the image is clear and try again.".

(** [{ status: 'CLASSIFICATION_FAILED', errorMessage: ... }] of the
    [catch] of the identity-document branch. *)
Definition unclassifiable_data : Data :=
  {| data_fileName := None; data_mimeType := None;
     data_status := Some CLASSIFICATION_FAILED;
     data_errorMessage := Some (Some unclassifiable_message);
     data_documentVerifyId := None; data_verificationResult := None;
     data_classificationResult := None |}.

(** The payload of a résumé whose verification was skipped. *)
Definition skipped_result : Json :=
  JObj [("status", JStr "SKIPPED");
        ("message", JStr "Resume verification is not required")].

(** [{ status: 'DONE', verificationResult: { status: 'SKIPPED', ... } }] *)
Definition skipped_data : Data :=
  {| data_fileName := None; data_mimeType := None;
     data_status := Some DONE; data_errorMessage := None;
     data_documentVerifyId := None;
     data_verificationResult := Some (Some skipped_result);
     data_classificationResult := None |}.

(** [{ status: result.status, verificationResult: result as object }] *)
Definition poll_data (result : VerifyStatusResult) : Data :=
  {| data_fileName := None; data_mimeType := None;
     data_status := Some (VerifyStatus_to_status (result_status result));
     data_errorMessage := None; data_documentVerifyId := None;
     data_verificationResult :=
       Some (Some (VerifyStatusResult_to_json result));
     data_classificationResult := None |}.

(** [submitDocumentForVerification]: the row goes to [SUBMITTING], the
    gateway is called, and the row goes to [PROCESSING] with the id the
    gateway gave; any error on the way marks the row [FAILED] and is thrown
    again. *)
Definition submitDocumentForVerification (env : Env)
    (documentId base64Image mimeType countryCode documentType : string)
    : M unit :=
  try_catch
    (update env documentId submitting_data;;
     result ← await (CallSubmit ("doc-" ++ documentId))
       (submitForVerification env base64Image mimeType countryCode
          documentType ("doc-" ++ documentId));
     update env documentId (processing_data result))
    (λ error,
     update env documentId submit_failed_data;;
     throw error).

(** ** POST /upload *)

Record UploadRequest := {
  up_userId : string;                  (* set by [authenticateToken] *)
  up_file : option File;               (* [req.file] *)
  up_documentType : option string;     (* [req.body.documentType] *)
}.

(** [isValid] and [expectedType] of a category. *)
Definition classification_rule (docType : DocumentType)
    (classification : ClassificationResult) : bool * string :=
  match docType with
  | PASSPORT =>
      (isValidPhilippinesPassport classification, "Philippines Passport")
  | DRIVERS_LICENCE =>
      (isValidPhilippinesDriversLicence classification,
       "Philippines Driver's Licence")
  | RESUME => (false, "")
  end.

Definition rejected_response (detectedType expectedType : string)
    (classification : ClassificationResult) : Response :=
  reply 400
    (ClassificationErrorBody
       ("Invalid document type. Expected " ++ expectedType ++
        " but detected " ++ detectedType ++
        ". Please upload the correct document.")
       classification).

Definition unclassifiable_response : Response :=
  reply 400
    (ErrorBody "We couldn't verify the document type. Please ensure the image is clear and shows the full document.").

(** The identity-document branch: classify first, then submit. *)
Definition upload_id_document (env : Env) (uid : string)
    (docType : DocumentType) (file : File) : M Response :=
  let base64Image := buffer_base64 file in
  let mimeType := mimetype file in
  document ← upsert env uid docType (reupload_id_data file)
    (create_document env (originalname file) mimeType CLASSIFYING);
  try_catch
    (classification ← await CallClassify
       (classifyDocument env base64Image mimeType);
     update env (doc_id document) (classified_data classification);;
     let '(isValid, expectedType) :=
       classification_rule docType classification in
     if negb isValid then
       let detectedType := getDocumentDescription classification in
       update env (doc_id document)
         (rejected_data detectedType expectedType);;
       mret (rejected_response detectedType expectedType classification)
     else
       submitDocumentForVerification env (doc_id document) base64Image
         mimeType
         (js_or (code <$> country classification) "PHL")
         (js_or (code <$> documentType classification)
            (DocumentType_name docType));;
       updatedDoc ← findUniqueById (doc_id document);
       mret (reply 200
               (UploadBody "Document uploaded and submitted for verification"
                  (summary_of true updatedDoc))))
    (λ classifyError,
     update env (doc_id document) unclassifiable_data;;
     mret unclassifiable_response).

(** The résumé branch: no classification, submit directly; a failed
    submission is turned into [DONE] with the skipped payload. *)
Definition upload_resume (env : Env) (uid : string)
    (docType : DocumentType) (file : File) : M Response :=
  let base64Image := buffer_base64 file in
  let mimeType := mimetype file in
  document ← upsert env uid docType (reupload_resume_data file)
    (create_document env (originalname file) mimeType SUBMITTING);
  try_catch
    (submitDocumentForVerification env (doc_id document) base64Image mimeType
       "PHL" "OTHER";;
     updatedDoc ← findUniqueById (doc_id document);
     mret (reply 200
             (UploadBody "Resume uploaded and submitted for verification"
                (summary_of true updatedDoc))))
    (λ submitError,
     update env (doc_id document) skipped_data;;
     updatedDoc ← findUniqueById (doc_id document);
     mret (reply 200
             (UploadBody "Resume uploaded successfully"
                (summary_of false updatedDoc)))).

Definition conflict_message : string :=
  "This document type has already been verified. Please contact support if you need to re-submit.".

Definition uploadHandler (env : Env) (req : UploadRequest) : M Response :=
  try_catch
    (match up_file req with
     | None => mret (reply 400 (ErrorBody "Please select a file to upload"))
     | Some file =>
       match up_documentType req ≫= parse_DocumentType with
       | None => mret (reply 400 (ErrorBody "Invalid document type"))
       | Some docType =>
         if is_id_document docType &&
            negb (bool_decide (mimetype file ∈ imageMimes))
         then mret (reply 400 (ErrorBody "Passport and Driver's Licence must be uploaded as JPEG or PNG images. PDF files are not supported for ID documents."))
         else if is_id_document docType &&
                 (5 * 1024 * 1024 <? file_size file)%N
         then mret (reply 400 (ErrorBody "Image file is too large. Please upload an image smaller than 5MB."))
         else
           existingDoc ← findUnique (up_userId req) docType;
           if bool_decide (status <$> existingDoc = Some DONE)
           then mret (reply 409 (ErrorBody conflict_message))
           else if is_id_document docType
           then upload_id_document env (up_userId req) docType file
           else upload_resume env (up_userId req) docType file
       end
     end)
    (λ error,
     if includes (message error) "Invalid file type"
     then mret (reply 400 (ErrorBody (message error)))
     else mret (reply 500 (ErrorBody "Something went wrong while uploading. Please try again."))).

(** ** The route of POST /upload *)

(** [upload.single('file')], which the route runs before the handler:
    multer asks [fileFilter] when the file part starts and counts the bytes
    against [limits.fileSize] while it reads them.  A refusal is an error
    given to [next]; the handler is then not run.  The second message is
    the one of multer's own error for the size limit. *)
Definition multer_refusal (file : option File) : option JsError :=
  match file with
  | None => None
  | Some f =>
      if negb (fileFilter f)
      then Some {| message := "Invalid file type. Only JPEG, PNG, and PDF files are allowed." |}
      else if (fileSizeLimit <? file_size f)%N
      then Some {| message := "File too large" |}
      else None
  end.

(** [errorHandler], mounted after the routes: every error given to [next]
    is answered 500, with the error's message outside production. *)
Definition errorHandler (production : bool) (err : JsError) : Response :=
  let text :=
    if production then "An unexpected error occurred. Please try again."
    else message err in
  reply 500 (ErrorBody text).

(** The route after [authenticateToken]: multer, then the handler on what
    multer let through, or the error handler on what it refused. *)
Definition uploadRoute (production : bool) (env : Env) (req : UploadRequest)
    : M Response :=
  match multer_refusal (up_file req) with
  | Some err => mret (errorHandler production err)
  | None => uploadHandler env req
  end.

(** ** GET /:documentId/status *)

Definition has_result (st : DocumentStatus) : bool :=
  bool_decide (st = DONE) || bool_decide (st = FAILED).

(** The poll made for a row that is [PROCESSING] and has a verification
    id.  [Some r] is the answer sent from inside the [try] block; [None]
    means that the handler goes on to its last statement, also after the
    [catch]. *)
Definition poll_for_update (env : Env) (document : Document)
    (verifyId : string) : M (option Response) :=
  try_catch
    (result ← await (CallPoll verifyId) (getVerificationResult env verifyId);
     match result_status result with
     | VS_DONE | VS_FAILED =>
         update env (doc_id document) (poll_data result);;
         mret (Some (reply 200
                       (StatusBody (doc_id document)
                          (VerifyStatus_to_status (result_status result))
                          true)))
     | VS_PROCESSING => mret None
     end)
    (λ pollError, mret None).

Definition statusHandler (env : Env) (uid documentId : string) : M Response :=
  try_catch
    (found ← findFirst documentId uid;
     match found with
     | None => mret (reply 404 (ErrorBody "Document not found"))
     | Some (_, document) =>
       sent ← (if bool_decide (status document = PROCESSING) &&
                  truthy (documentVerifyId document)
               then poll_for_update env document
                      (default "" (documentVerifyId document))
               else mret None);
       match sent with
       | Some response => mret response
       | None =>
           mret (reply 200
                   (StatusBody (doc_id document) (status document)
                      (has_result (status document))))
       end
     end)
    (λ error, mret (reply 500 (ErrorBody "Failed to get document status"))).

(** ** GET /:documentId/result *)

Definition resultHandler (uid documentId : string) : M Response :=
  try_catch
    (found ← findFirst documentId uid;
     match found with
     | None => mret (reply 404 (ErrorBody "Document not found"))
     | Some (ty, document) =>
       if negb (bool_decide (status document = DONE)) &&
          negb (bool_decide (status document = FAILED))
       then mret (reply 400 (ErrorBody "Verification is still in progress"))
       else mret (reply 200 (ResultBody (select_result ty document)))
     end)
    (λ error, mret (reply 500 (ErrorBody "Failed to get verification result"))).

(** Running a handler on a table: the answer, the table after the request
    and what the request did. *)
Definition run {A} (m : M A) (s : Store) : (JsError + A) * World :=
  m {| db := s; trace := [] |}.

(** The events that change the table, and the submission call. *)
Definition is_write (ev : Event) : bool :=
  match ev with DbUpsert _ _ | DbUpdate _ => true | _ => false end.

Definition is_submit (ev : Event) : bool :=
  match ev with CallSubmit _ => true | _ => false end.

(** ** Requests one after the other *)

(** The requests that can change the table (GET / only lists rows). *)
Inductive Request :=
| Upload (req : UploadRequest)
| Status (uid documentId : string)
| Result (uid documentId : string).

(** What multer lets through: no file, or a file of an allowed media type
    within the size limit. *)
Definition accepted_by_multer (rq : Request) : Prop :=
  match rq with
  | Upload req =>
      match up_file req with
      | Some file =>
          fileFilter file = true ∧ (file_size file ≤ fileSizeLimit)%N
      | None => True
      end
  | _ => True
  end.

Definition handle (env : Env) (rq : Request) : M Response :=
  match rq with
  | Upload req => uploadHandler env req
  | Status uid i => statusHandler env uid i
  | Result uid i => resultHandler uid i
  end.

(** The tables the handlers can produce from the empty one. *)
Inductive reachable : Store → Prop :=
| reachable_empty : reachable ∅
| reachable_step s env rq :
    reachable s → accepted_by_multer rq →
    reachable (db (run (handle env rq) s).2).

(** One status request after the other, each with the outside world it
    meets, each on the table the one before left. *)
Fixpoint status_requests (envs : list Env) (uid i : string) (s : Store)
    : list ((JsError + Response) * World) :=
  match envs with
  | [] => []
  | env :: rest =>
      let rw := run (statusHandler env uid i) s in
      rw :: status_requests rest uid i (db rw.2)
  end.

(** ** Notions the properties are stated with *)

(** The three ways an upload is invalid: a category that is none of the
    three, an identity document that is not a JPEG or PNG image, an
    identity document above 5MB. *)
Inductive InvalidInput (req : UploadRequest) : Prop :=
| unknown_category :
    (∀ t, up_documentType req ≠ Some (DocumentType_name t)) →
    InvalidInput req
| not_an_image file t :
    up_file req = Some file →
    up_documentType req = Some (DocumentType_name t) →
    t = PASSPORT ∨ t = DRIVERS_LICENCE →
    mimetype file ∉ imageMimes →
    InvalidInput req
| too_large file t :
    up_file req = Some file →
    up_documentType req = Some (DocumentType_name t) →
    t = PASSPORT ∨ t = DRIVERS_LICENCE →
    (5 * 1024 * 1024 < file_size file)%N →
    InvalidInput req.

(** The row an upsert stores: the existing row with the [update] object
    applied, or the [create] object. *)
Definition upserted (env : Env) (s : Store) (uid : string)
    (ty : DocumentType) (ud : Data) (cr : Document) : Document :=
  match s !! (uid, ty) with
  | Some old => apply_data ud (now env) old
  | None => cr
  end.

Definition resume_row (env : Env) (s : Store) (uid : string) (file : File)
    : Document :=
  upserted env s uid RESUME (reupload_resume_data file)
    (create_document env (originalname file) (mimetype file) SUBMITTING).

Definition id_row (env : Env) (s : Store) (uid : string)
    (ty : DocumentType) (file : File) : Document :=
  upserted env s uid ty (reupload_id_data file)
    (create_document env (originalname file) (mimetype file) CLASSIFYING).

Definition not_found : Response := reply 404 (ErrorBody "Document not found").

(** [errorMessage] is set in the failure states only. *)
Definition error_only_on_failure (d : Document) : Prop :=
  errorMessage d ≠ None →
  status d = FAILED ∨ status d = CLASSIFICATION_FAILED.

(** ** The wording of the specification where the code differs *)

(** The terminal states in the words of the specification: [DONE],
    [FAILED], and [CLASSIFICATION_FAILED] until a new upload. *)
Definition spec_terminal (st : DocumentStatus) : bool :=
  bool_decide (st = DONE) || bool_decide (st = FAILED) ||
  bool_decide (st = CLASSIFICATION_FAILED).

(** The result endpoint as the specification words it, for the row the
    requester's query finds: 400 while the state is not terminal, the
    selected document with both payloads once it is. *)
Definition result_endpoint_as_specified (s : Store) (uid i : string) : Prop :=
  ∀ ty d,
    find_first i uid s = Some (ty, d) →
    (run (resultHandler uid i) s).1 =
    inr (if spec_terminal (status d)
         then reply 200 (ResultBody (select_result ty d))
         else reply 400 (ErrorBody "Verification is still in progress")).

(** The claim in the specification's words: after an upload that reached
    the classify step the row holds a classification payload. *)
Definition payload_persisted_as_specified (rw : (JsError + Response) * World)
    (uid : string) (ty : DocumentType) : Prop :=
  CallClassify ∈ trace rw.2 →
  ∃ d, db rw.2 !! (uid, ty) = Some d ∧ is_Some (classificationResult d).

(** The rejection of invalid input as the specification words it: the
    answer is 400 and the request touched nothing. *)
Definition invalid_input_as_specified (rw : (JsError + Response) * World)
    (s : Store) : Prop :=
  (∃ msg, rw.1 = inr (reply 400 (ErrorBody msg))) ∧
  rw.2 = {| db := s; trace := [] |}.

(** The rejection of an upload onto a verified document as the
    specification words it: the answer is 409 and the table is as it was. *)
Definition conflict_as_specified (rw : (JsError + Response) * World)
    (s : Store) : Prop :=
  (∃ msg, rw.1 = inr (reply 409 (ErrorBody msg))) ∧ db rw.2 = s.

(** ** Sample tables, files and gateways *)

(** An outside world in which every gateway call fails. *)
Definition env_down : Env :=
  {| classifyDocument := λ _ _, inl {| message := "Classification failed: 503" |};
     submitForVerification := λ _ _ _ _ _,
       inl {| message := "Verification submission failed: 503" |};
     getVerificationResult := λ _,
       inl {| message := "Failed to get verification result: 503" |};
     newId := "doc-1";
     now := 1000 |}.

(** The answer of a finished verification, and a gateway that accepts a
    Philippine passport and gives that answer to a poll. *)
Definition verified_answer : VerifyStatusResult :=
  {| result_documentVerifyId := "ver-5"; result_status := VS_DONE;
     result_rest := [("score", JNum 97)] |}.

Definition env_verified : Env :=
  {| classifyDocument := λ _ _,
       inr {| country := Some {| code := "PHL"; name := "Philippines" |};
              documentType := Some {| code := "PASSPORT"; name := "Passport" |} |};
     submitForVerification := λ _ _ _ _ _,
       inr {| submit_documentVerifyId := "ver-5";
              submit_status := "PROCESSING" |};
     getVerificationResult := λ _, inr verified_answer;
     newId := "doc-9";
     now := 2000 |}.

(** A gateway that takes the scan for an Australian driver's licence. *)
Definition env_foreign_licence : Env :=
  {| classifyDocument := λ _ _,
       inr {| country := Some {| code := "AUS"; name := "Australia" |};
              documentType :=
                Some {| code := "DRIVERS_LICENCE"; name := "Driver Licence" |} |};
     submitForVerification := λ _ _ _ _ _,
       inr {| submit_documentVerifyId := "ver-7";
              submit_status := "PROCESSING" |};
     getVerificationResult := λ _, inr verified_answer;
     newId := "doc-7";
     now := 3000 |}.

(** Uploads of alice: a passport as an image and as a PDF, a résumé. *)
Definition passport_scan : File :=
  {| originalname := "passport.png"; mimetype := "image/png";
     file_size := 204800; buffer_base64 := "iVBORw0KGgo=" |}.

Definition passport_upload : UploadRequest :=
  {| up_userId := "alice"; up_file := Some passport_scan;
     up_documentType := Some "PASSPORT" |}.

Definition passport_pdf_upload : UploadRequest :=
  {| up_userId := "alice";
     up_file := Some {| originalname := "passport.pdf";
                        mimetype := "application/pdf";
                        file_size := 204800;
                        buffer_base64 := "JVBERi0xLjQ=" |};
     up_documentType := Some "PASSPORT" |}.

Definition resume_pdf : File :=
  {| originalname := "cv.pdf"; mimetype := "application/pdf";
     file_size := 51200; buffer_base64 := "JVBERi0xLjQ=" |}.

Definition resume_upload : UploadRequest :=
  {| up_userId := "alice"; up_file := Some resume_pdf;
     up_documentType := Some "RESUME" |}.

(** A table with one passport that failed classification. *)
Definition rejected_passport : Document :=
  {| doc_id := "doc-7"; fileName := "scan.png"; mimeType := "image/png";
     status := CLASSIFICATION_FAILED; documentVerifyId := None;
     errorMessage :=
       Some "Unable to classify the document. Please ensure the image is clear and try again.";
     verificationResult := None; classificationResult := None;
     createdAt := 10; updatedAt := 20 |}.

Definition rejected_store : Store :=
  {[ ("alice", PASSPORT) := rejected_passport ]}.

(** A verified résumé of alice. *)
Definition verified_resume : Document :=
  {| doc_id := "doc-3"; fileName := "cv.pdf"; mimeType := "application/pdf";
     status := DONE; documentVerifyId := Some "ver-3"; errorMessage := None;
     verificationResult := Some (JObj [("status", JStr "DONE")]);
     classificationResult := None; createdAt := 10; updatedAt := 30 |}.

Definition verified_store : Store := {[ ("alice", RESUME) := verified_resume ]}.

(** A passport of alice under verification. *)
Definition processing_passport : Document :=
  {| doc_id := "doc-5"; fileName := "passport.png"; mimeType := "image/png";
     status := PROCESSING; documentVerifyId := Some "ver-5";
     errorMessage := None; verificationResult := None;
     classificationResult := None; createdAt := 10; updatedAt := 40 |}.

Definition processing_store : Store :=
  {[ ("alice", PASSPORT) := processing_passport ]}.

(** A verified passport of alice. *)
Definition verified_passport : Document :=
  {| doc_id := "doc-5"; fileName := "passport.png"; mimeType := "image/png";
     status := DONE; documentVerifyId := Some "ver-5"; errorMessage := None;
     verificationResult :=
       Some (JObj [("documentVerifyId", JStr "ver-5"); ("status", JStr "DONE")]);
     classificationResult := None; createdAt := 10; updatedAt := 50 |}.

Definition verified_passport_store : Store :=
  {[ ("alice", PASSPORT) := verified_passport ]}.

(** A passport of alice as a PNG of 12MB. *)
Definition oversized_passport_upload : UploadRequest :=
  {| up_userId := "alice";
     up_file := Some {| originalname := "passport-600dpi.png";
                        mimetype := "image/png";
                        file_size := 12582912;
                        buffer_base64 := "iVBORw0KGgo=" |};
     up_documentType := Some "PASSPORT" |}.

(** ** The effect of a request on the table *)

(** Updates by the same id, one after the other, and what they make of a
    row with that id. *)
Definition apply_updates (i : string) (n : N) (dts : list Data) (s : Store)
    : Store :=
  foldl (λ s' dt, update_where_id i dt n s') s dts.

Definition row_after (n : N) (dts : list Data) (d : Document) : Document :=
  foldl (λ d' dt, apply_data dt n d') d dts.

(** The row the upsert of an upload stores. *)
Definition upload_row (env : Env) (s : Store) (uid : string)
    (ty : DocumentType) (file : File) : Document :=
  if is_id_document ty then id_row env s uid ty file
  else resume_row env s uid file.

(** The updates an upload makes after its upsert, by the answers of the
    gateway: the six ways through [upload_id_document] and
    [upload_resume]. *)
Inductive upload_script (env : Env) (file : File)
    : DocumentType → string → list Data → Prop :=
| script_unclassifiable ty i e :
    ty ≠ RESUME →
    classifyDocument env (buffer_base64 file) (mimetype file) = inl e →
    upload_script env file ty i [unclassifiable_data]
| script_rejected ty i c :
    ty ≠ RESUME →
    classifyDocument env (buffer_base64 file) (mimetype file) = inr c →
    (classification_rule ty c).1 = false →
    upload_script env file ty i
      [classified_data c;
       rejected_data (getDocumentDescription c) (classification_rule ty c).2]
| script_id_submit_failed ty i c e :
    ty ≠ RESUME →
    classifyDocument env (buffer_base64 file) (mimetype file) = inr c →
    (classification_rule ty c).1 = true →
    submitForVerification env (buffer_base64 file) (mimetype file)
      (js_or (code <$> country c) "PHL")
      (js_or (code <$> documentType c) (DocumentType_name ty))
      ("doc-" ++ i) = inl e →
    upload_script env file ty i
      [classified_data c; submitting_data; submit_failed_data;
       unclassifiable_data]
| script_id_processing ty i c r :
    ty ≠ RESUME →
    classifyDocument env (buffer_base64 file) (mimetype file) = inr c →
    (classification_rule ty c).1 = true →
    submitForVerification env (buffer_base64 file) (mimetype file)
      (js_or (code <$> country c) "PHL")
      (js_or (code <$> documentType c) (DocumentType_name ty))
      ("doc-" ++ i) = inr r →
    upload_script env file ty i
      [classified_data c; submitting_data; processing_data r]
| script_resume_processing i r :
    submitForVerification env (buffer_base64 file) (mimetype file)
      "PHL" "OTHER" ("doc-" ++ i) = inr r →
    upload_script env file RESUME i [submitting_data; processing_data r]
| script_resume_skipped i e :
    submitForVerification env (buffer_base64 file) (mimetype file)
      "PHL" "OTHER" ("doc-" ++ i) = inl e →
    upload_script env file RESUME i
      [submitting_data; submit_failed_data; skipped_data].

(** No two rows have the same id: [id] is the primary key. *)
Definition ids_unique (s : Store) : Prop :=
  ∀ k1 k2 d1 d2,
    s !! k1 = Some d1 → s !! k2 = Some d2 → doc_id d1 = doc_id d2 → k1 = k2.

(** The id is that of no row. *)
Definition fresh_id (i : string) (s : Store) : Prop :=
  ∀ k d, s !! k = Some d → doc_id d ≠ i.

(** The tables the handlers produce from the empty one when the id given
    to a new row is that of no stored row. *)
Inductive reachable_fresh : Store → Prop :=
| reachable_fresh_empty : reachable_fresh ∅
| reachable_fresh_step s env rq :
    reachable_fresh s → fresh_id (newId env) s →
    reachable_fresh (db (run (handle env rq) s).2).

(** What a row holds in each state a request leaves it in; the transient
    states [PENDING], [CLASSIFYING] and [SUBMITTING] are not among them. *)
Definition settled (d : Document) : Prop :=
  match status d with
  | PROCESSING => is_Some (documentVerifyId d)
  | DONE | FAILED => is_Some (verificationResult d)
  | CLASSIFICATION_FAILED => is_Some (errorMessage d)
  | PENDING | CLASSIFYING | SUBMITTING => False
  end.

(** Where an error message is stored. *)
Definition error_profile (d : Document) : Prop :=
  match status d with
  | PROCESSING | FAILED => errorMessage d = None
  | CLASSIFICATION_FAILED => is_Some (errorMessage d)
  | DONE =>
      errorMessage d = None ∨
      (errorMessage d = Some submit_failed_message ∧
       verificationResult d = Some skipped_result)
  | PENDING | CLASSIFYING | SUBMITTING => False
  end.

(** The answer of the status endpoint that reports a row as stored. *)
Definition stored_status (i : string) (d : Document) : JsError + Response :=
  inr (reply 200 (StatusBody i (status d) (has_result (status d)))).

(** Who makes a request. *)
Definition requester (rq : Request) : string :=
  match rq with
  | Upload req => up_userId req
  | Status uid _ | Result uid _ => uid
  end.

(** ** GET / *)

(** The columns the list endpoint selects. *)
Record DocumentListItem := {
  item_id : string;
  item_documentType : DocumentType;
  item_fileName : string;
  item_status : DocumentStatus;
  item_documentVerifyId : option string;
  item_errorMessage : option string;
  item_createdAt : N;
  item_updatedAt : N;
}.

Definition select_list_item (td : DocumentType * Document)
    : DocumentListItem :=
  {| item_id := doc_id td.2; item_documentType := td.1;
     item_fileName := fileName td.2; item_status := status td.2;
     item_documentVerifyId := documentVerifyId td.2;
     item_errorMessage := errorMessage td.2;
     item_createdAt := createdAt td.2; item_updatedAt := updatedAt td.2 |}.

(** [orderBy: { createdAt: 'desc' }] *)
Definition newer_first (a b : DocumentType * Document) : Prop :=
  (createdAt b.2 ≤ createdAt a.2)%N.

#[global] Instance newer_first_dec : RelDecision newer_first.
Proof. intros a b. unfold newer_first. apply _. Defined.

(** [findMany] with [where: { userId }]: the rows of the user, newest
    first. *)
Definition find_many (uid : string) (s : Store)
    : list (DocumentType * Document) :=
  merge_sort newer_first (rows_of_user uid s).

(** The [documents] array the list endpoint answers with. *)
Definition listDocuments (uid : string) (s : Store) : list DocumentListItem :=
  select_list_item <$> find_many uid s.

(** ** The document card of the front end *)

(** A [DocumentStatus] as the API writes it in JSON. *)
Definition DocumentStatus_name (st : DocumentStatus) : string :=
  match st with
  | PENDING => "PENDING"
  | CLASSIFYING => "CLASSIFYING"
  | CLASSIFICATION_FAILED => "CLASSIFICATION_FAILED"
  | SUBMITTING => "SUBMITTING"
  | PROCESSING => "PROCESSING"
  | DONE => "DONE"
  | FAILED => "FAILED"
  end.

(** [getStatusColor] of [lib/utils.ts]. *)
Definition getStatusColor (status : string) : string :=
  if decide (status = "DONE") then "text-green-600 bg-green-50"
  else if decide (status = "PROCESSING") then "text-blue-600 bg-blue-50"
  else if decide (status = "CLASSIFYING") then "text-blue-600 bg-blue-50"
  else if decide (status = "SUBMITTING") then "text-blue-600 bg-blue-50"
  else if decide (status = "CLASSIFICATION_FAILED")
       then "text-red-600 bg-red-50"
  else if decide (status = "FAILED") then "text-red-600 bg-red-50"
  else "text-gray-600 bg-gray-50".

(** The flags of [DocumentCard]; [status] is [document?.status],
    [undefined] without a document. *)
Definition isProcessing (status : option string) : bool :=
  bool_decide (status = Some "PROCESSING") ||
  bool_decide (status = Some "CLASSIFYING") ||
  bool_decide (status = Some "SUBMITTING").

Definition isDone (status : option string) : bool :=
  bool_decide (status = Some "DONE").

Definition isFailed (status : option string) : bool :=
  bool_decide (status = Some "FAILED") ||
  bool_decide (status = Some "CLASSIFICATION_FAILED").

Definition canUpload (uploading : bool) (status : option string) : bool :=
  negb uploading && negb (isProcessing status) && negb (isDone status).

(** The status the card of a category sees for a user. *)
Definition card_status (s : Store) (uid : string) (ty : DocumentType)
    : option string :=
  DocumentStatus_name ∘ status <$> s !! (uid, ty).

(** ** Accounts: [routes/auth.ts] *)

(** A row of the [users] table; [user_password] is the bcrypt hash. *)
Record User := {
  user_id : string;
  user_username : string;
  user_password : string;
  user_createdAt : N;
}.

(** The table, keyed by its unique column [username]. *)
Abbreviation Users := (gmap string User).

(** What the account handlers meet outside: [bcrypt.hash] (salted, so not
    a function of the password alone), [bcrypt.compare], [generateToken]
    of the authentication middleware, the id of a new row and the clock;
    each call returns or throws. *)
Record AuthEnv := {
  bcrypt_hash : string → JsError + string;
  bcrypt_compare : string → string → JsError + bool;
  generateToken : string → JsError + string;
  newUserId : string;
  auth_now : N;
}.

Inductive AuthEvent :=
| UserFindUnique (username : string)
| UserCreate (username : string)
| BcryptHash
| BcryptCompare
| TokenIssued (userId : string).

Inductive AuthBody :=
| AuthError (error : string)
| AuthSession (id username token : string).

Record AuthResponse := { auth_status : nat; auth_body : AuthBody }.

(** [req.body] of the two routes.  The characters of a string of the
    model stand for the code units [.length] counts. *)
Record Credentials := {
  cred_username : option string;
  cred_password : option string;
}.

Definition auth_reply (c : nat) (b : AuthBody) (us : Users)
    (log : list AuthEvent) : AuthResponse * Users * list AuthEvent :=
  ({| auth_status := c; auth_body := b |}, us, log).

(** POST /register *)
Definition registerHandler (aenv : AuthEnv) (req : Credentials) (us : Users)
    : AuthResponse * Users * list AuthEvent :=
  if negb (truthy (cred_username req)) || negb (truthy (cred_password req))
  then auth_reply 400 (AuthError "Username and password are required") us []
  else
    let username := default "" (cred_username req) in
    let password := default "" (cred_password req) in
    if (String.length username <? 3)%nat
    then auth_reply 400 (AuthError "Username must be at least 3 characters")
           us []
    else if (String.length password <? 6)%nat
    then auth_reply 400 (AuthError "Password must be at least 6 characters")
           us []
    else
      match us !! username with
      | Some existingUser =>
          auth_reply 409 (AuthError "Username already taken") us
            [UserFindUnique username]
      | None =>
          match bcrypt_hash aenv password with
          | inl _ =>
              auth_reply 500
                (AuthError "Failed to create account. Please try again.") us
                [UserFindUnique username; BcryptHash]
          | inr hashedPassword =>
              let user := {| user_id := newUserId aenv;
                             user_username := username;
                             user_password := hashedPassword;
                             user_createdAt := auth_now aenv |} in
              match generateToken aenv (user_id user) with
              | inl _ =>
                  auth_reply 500
                    (AuthError "Failed to create account. Please try again.")
                    (<[username := user]> us)
                    [UserFindUnique username; BcryptHash;
                     UserCreate username; TokenIssued (user_id user)]
              | inr token =>
                  auth_reply 201
                    (AuthSession (user_id user) (user_username user) token)
                    (<[username := user]> us)
                    [UserFindUnique username; BcryptHash;
                     UserCreate username; TokenIssued (user_id user)]
              end
          end
      end.

(** POST /login *)
Definition loginHandler (aenv : AuthEnv) (req : Credentials) (us : Users)
    : AuthResponse * Users * list AuthEvent :=
  if negb (truthy (cred_username req)) || negb (truthy (cred_password req))
  then auth_reply 400 (AuthError "Username and password are required") us []
  else
    let username := default "" (cred_username req) in
    let password := default "" (cred_password req) in
    match us !! username with
    | None =>
        auth_reply 401 (AuthError "Invalid username or password") us
          [UserFindUnique username]
    | Some user =>
        match bcrypt_compare aenv password (user_password user) with
        | inl _ =>
            auth_reply 500 (AuthError "Failed to sign in. Please try again.")
              us [UserFindUnique username; BcryptCompare]
        | inr false =>
            auth_reply 401 (AuthError "Invalid username or password") us
              [UserFindUnique username; BcryptCompare]
        | inr true =>
            match generateToken aenv (user_id user) with
            | inl _ =>
                auth_reply 500
                  (AuthError "Failed to sign in. Please try again.") us
                  [UserFindUnique username; BcryptCompare;
                   TokenIssued (user_id user)]
            | inr token =>
                auth_reply 200
                  (AuthSession (user_id user) (user_username user) token) us
                  [UserFindUnique username; BcryptCompare;
                   TokenIssued (user_id user)]
            end
        end
    end.

(** ** Further sample gateways and accounts *)

(** A gateway that is still verifying. *)
Definition pending_answer : VerifyStatusResult :=
  {| result_documentVerifyId := "ver-5"; result_status := VS_PROCESSING;
     result_rest := [] |}.

Definition env_pending : Env :=
  {| classifyDocument := classifyDocument env_verified;
     submitForVerification := submitForVerification env_verified;
     getVerificationResult := λ _, inr pending_answer;
     newId := "doc-9";
     now := 2500 |}.

(** A gateway that classifies a Philippine passport and then refuses the
    submission. *)
Definition env_submit_down : Env :=
  {| classifyDocument := classifyDocument env_verified;
     submitForVerification := λ _ _ _ _ _,
       inl {| message := "Verification submission failed: 502" |};
     getVerificationResult := getVerificationResult env_verified;
     newId := "doc-9";
     now := 2600 |}.

Definition philippine_passport : ClassificationResult :=
  {| country := Some {| code := "PHL"; name := "Philippines" |};
     documentType := Some {| code := "PASSPORT"; name := "Passport" |} |}.

(** An account service with a transparent stand-in for bcrypt. *)
Definition aenv_sample : AuthEnv :=
  {| bcrypt_hash := λ p, inr ("$2a$10$" ++ p);
     bcrypt_compare := λ p h, inr (bool_decide (h = "$2a$10$" ++ p));
     generateToken := λ i, inr ("token-" ++ i);
     newUserId := "user-1";
     auth_now := 500 |}.

Definition carol : Credentials :=
  {| cred_username := Some "carol"; cred_password := Some "s3cret!" |}.

Definition short_password : Credentials :=
  {| cred_username := Some "carol"; cred_password := Some "abc" |}.

(** * Properties *)

(** ** Store lemmas *)

Section store.
Implicit Types (s : Store) (d : Document) (k : string * DocumentType).

Lemma doc_id_apply_data dt n d : doc_id (apply_data dt n d) = doc_id d.
Proof. reflexivity. Qed.

(** A stored row is found by its id, so that [update] does not throw. *)
Lemma find_by_id_is_Some s k d :
  s !! k = Some d → is_Some (find_by_id (doc_id d) s).
Proof.
  intros Hk. unfold find_by_id, rows_with_id.
  assert ((k, d) ∈ filter (λ kv, doc_id kv.2 = doc_id d) (map_to_list s))
    as Hin.
  { apply list_elem_of_filter. split; [done|].
    by apply elem_of_map_to_list. }
  destruct (filter _ _) as [|x l]; [by apply elem_of_nil in Hin|].
  by exists x.
Qed.

Lemma find_by_id_Some s i kd :
  find_by_id i s = Some kd → s !! kd.1 = Some kd.2 ∧ doc_id kd.2 = i.
Proof.
  unfold find_by_id, rows_with_id. intros Hh.
  apply head_Some_elem_of, list_elem_of_filter in Hh as [Hid Hin].
  destruct kd as [k d]. by apply elem_of_map_to_list in Hin.
Qed.

Lemma lookup_update_where_id s i dt n k :
  update_where_id i dt n s !! k =
  (λ d, if decide (doc_id d = i) then apply_data dt n d else d) <$> s !! k.
Proof. unfold update_where_id. by rewrite lookup_fmap. Qed.

Lemma lookup_update_where_id_hit s i dt n k d :
  s !! k = Some d → doc_id d = i →
  update_where_id i dt n s !! k = Some (apply_data dt n d).
Proof.
  intros Hk Hi. rewrite lookup_update_where_id, Hk. simpl.
  by rewrite decide_True.
Qed.

Lemma rows_of_user_fmap (f : Document → Document) uid s :
  rows_of_user uid (f <$> s) = prod_map id f <$> rows_of_user uid s.
Proof.
  unfold rows_of_user. simpl. rewrite !lookup_fmap.
  by destruct (s !! (uid, PASSPORT)), (s !! (uid, DRIVERS_LICENCE)),
    (s !! (uid, RESUME)).
Qed.

Lemma find_fmap_invariant {A} (P : A → bool) (g : A → A) (l : list A) :
  (∀ x, P (g x) = P x) → find P (g <$> l) = g <$> find P l.
Proof.
  intros HP. induction l as [|x l IH]; [done|].
  simpl. rewrite HP. by destruct (P x).
Qed.

(** An update by id changes the row [findFirst] finds and nothing in
    what is found or not. *)
Lemma find_first_update_where_id s i uid j dt n :
  find_first i uid (update_where_id j dt n s) =
  prod_map id (λ d, if decide (doc_id d = j) then apply_data dt n d else d)
    <$> find_first i uid s.
Proof.
  unfold find_first, update_where_id. rewrite rows_of_user_fmap.
  apply find_fmap_invariant. intros [t d]. simpl.
  by destruct (decide (doc_id d = j)).
Qed.

Lemma elem_of_rows_of_user uid s t d :
  (t, d) ∈ rows_of_user uid s ↔ s !! (uid, t) = Some d.
Proof.
  unfold rows_of_user. rewrite list_elem_of_omap. split.
  - intros (t' & _ & Ht). destruct (s !! (uid, t')) eqn:E; by simplify_eq/=.
  - intros Hs. exists t. rewrite Hs. split; [|done]. destruct t; set_solver.
Qed.

Lemma find_first_Some s i uid t d :
  find_first i uid s = Some (t, d) → s !! (uid, t) = Some d ∧ doc_id d = i.
Proof.
  unfold find_first. intros Hf. apply find_some in Hf as [Hin Hid].
  apply list_elem_of_In, elem_of_rows_of_user in Hin.
  by apply bool_decide_eq_true in Hid.
Qed.

(** [findFirst] misses exactly when the user owns no row with the id. *)
Lemma find_first_None s i uid :
  find_first i uid s = None ↔
  ∀ t d, s !! (uid, t) = Some d → doc_id d ≠ i.
Proof.
  unfold find_first. split.
  - intros Hf t d Hs Hid.
    apply elem_of_rows_of_user, list_elem_of_In in Hs.
    eapply find_none in Hf; [|done]. simpl in Hf.
    by apply bool_decide_eq_false in Hf.
  - intros Hn. destruct (find _ _) as [[t d]|] eqn:Hf; [|done].
    apply find_some in Hf as [Hin Hid].
    apply list_elem_of_In, elem_of_rows_of_user in Hin.
    apply bool_decide_eq_true in Hid. by destruct (Hn t d).
Qed.
End store.

(** ** Running the store operations *)

Section running.
Implicit Types (w : World) (d : Document) (k : string * DocumentType).

Lemma update_run env i dt w k d :
  db w !! k = Some d → doc_id d = i →
  update env i dt w =
  (inr (), {| db := update_where_id i dt (now env) (db w);
              trace := trace w ++ [DbUpdate i] |}).
Proof.
  intros Hk <-. destruct (find_by_id_is_Some _ _ _ Hk) as [x Hx].
  unfold update, mbind, M_bind, emit, get_db, put_db. simpl.
  by rewrite Hx.
Qed.

Lemma upsert_run env uid ty ud cr w :
  upsert env uid ty ud cr w =
  let d := match db w !! (uid, ty) with
           | Some old => apply_data ud (now env) old
           | None => cr
           end in
  (inr d, {| db := <[(uid, ty) := d]> (db w);
             trace := trace w ++ [DbUpsert uid ty] |}).
Proof. reflexivity. Qed.

Lemma findFirst_run i uid w :
  findFirst i uid w =
  (inr (find_first i uid (db w)),
   {| db := db w; trace := trace w ++ [DbFindFirst i uid] |}).
Proof. reflexivity. Qed.

Lemma findUnique_run uid ty w :
  findUnique uid ty w =
  (inr (db w !! (uid, ty)),
   {| db := db w; trace := trace w ++ [DbFindUnique uid ty] |}).
Proof. reflexivity. Qed.

Lemma findUniqueById_run i w :
  findUniqueById i w =
  (inr (find_by_id i (db w)),
   {| db := db w; trace := trace w ++ [DbFindById i] |}).
Proof. reflexivity. Qed.

Lemma await_run {A} ev (answer : JsError + A) w :
  await ev answer w =
  (answer, {| db := db w; trace := trace w ++ [ev] |}).
Proof. by destruct answer. Qed.

Lemma bind_run {A B} (m : M A) (f : A → M B) w :
  (m ≫= f) w =
  match m w with
  | (inr a, w') => f a w'
  | (inl e, w') => (inl e, w')
  end.
Proof. reflexivity. Qed.

Lemma try_catch_run {A} (m : M A) (h : JsError → M A) w :
  try_catch m h w =
  match m w with
  | (inr a, w') => (inr a, w')
  | (inl e, w') => h e w'
  end.
Proof. reflexivity. Qed.

Lemma parse_DocumentType_name t :
  parse_DocumentType (DocumentType_name t) = Some t.
Proof. by destruct t. Qed.

Lemma parse_DocumentType_Some s t :
  parse_DocumentType s = Some t → s = DocumentType_name t.
Proof.
  unfold parse_DocumentType. repeat case_decide; intros; by simplify_eq.
Qed.
End running.

(** ** Input validation of an upload *)

Lemma is_id_document_true t :
  is_id_document t = true ↔ t = PASSPORT ∨ t = DRIVERS_LICENCE.
Proof.
  destruct t; simpl; split; auto; try done; by intros [?|?].
Qed.

Lemma unknown_category_parse req :
  (∀ t, up_documentType req ≠ Some (DocumentType_name t)) →
  up_documentType req ≫= parse_DocumentType = None.
Proof.
  intros Hn. destruct (up_documentType req) as [c|] eqn:Hc; [|done]. simpl.
  destruct (parse_DocumentType c) as [t|] eqn:Hp; [|done].
  apply parse_DocumentType_Some in Hp. by destruct (Hn t); subst.
Qed.

(** What a request that is not invalid passes of the handler's tests. *)
Lemma valid_input_tests req file t :
  ¬ InvalidInput req →
  up_file req = Some file →
  up_documentType req = Some (DocumentType_name t) →
  is_id_document t && negb (bool_decide (mimetype file ∈ imageMimes)) = false ∧
  is_id_document t && (5 * 1024 * 1024 <? file_size file)%N = false.
Proof.
  intros Hv Hf Ht. split.
  - destruct (is_id_document t) eqn:Hid; [|done]. simpl.
    apply is_id_document_true in Hid.
    apply negb_false_iff, bool_decide_eq_true.
    destruct (decide (mimetype file ∈ imageMimes)) as [|Hn]; [done|].
    destruct Hv. by eapply not_an_image.
  - destruct (is_id_document t) eqn:Hid; [|done]. simpl.
    apply is_id_document_true in Hid. apply N.ltb_ge.
    destruct (N.le_gt_cases (file_size file) (5 * 1024 * 1024)) as [|Hn];
      [done|].
    destruct Hv. by eapply too_large.
Qed.

(** ** Properties of the upload route *)

(** The handler on invalid input: 400 with one of its messages, before any
    access to the table. *)
Lemma uploadHandler_invalid_input env req s :
  InvalidInput req →
  ∃ msg,
    run (uploadHandler env req) s =
    (inr (reply 400 (ErrorBody msg)), {| db := s; trace := [] |}) ∧
    msg ∈ ["Please select a file to upload"; "Invalid document type";
           "Passport and Driver's Licence must be uploaded as JPEG or PNG images. PDF files are not supported for ID documents.";
           "Image file is too large. Please upload an image smaller than 5MB."].
Proof.
  intros Hinv. unfold run, uploadHandler. rewrite try_catch_run.
  destruct Hinv as [Hcat | file t Hf Ht Hid Hm | file t Hf Ht Hid Hsz].
  - rewrite (unknown_category_parse _ Hcat).
    destruct (up_file req); (eexists; split; [reflexivity|]);
      rewrite !elem_of_cons; auto.
  - rewrite Hf, Ht. simpl. rewrite parse_DocumentType_name.
    apply is_id_document_true in Hid. rewrite Hid. simpl.
    rewrite bool_decide_eq_false_2 by done. simpl.
    eexists; split; [reflexivity|]. rewrite !elem_of_cons; auto.
  - rewrite Hf, Ht. simpl. rewrite parse_DocumentType_name.
    apply is_id_document_true in Hid. rewrite Hid.
    apply N.ltb_lt in Hsz. rewrite Hsz.
    destruct (true && negb _); simpl;
      (eexists; split; [reflexivity|]); rewrite !elem_of_cons; auto.
Qed.

(** The handler on an upload for a row that is [DONE]. *)
Lemma uploadHandler_on_done env req s ty d :
  up_documentType req = Some (DocumentType_name ty) →
  s !! (up_userId req, ty) = Some d →
  status d = DONE →
  let rw := run (uploadHandler env req) s in
  db rw.2 = s ∧
  Forall (λ ev, is_write ev = false) (trace rw.2) ∧
  (∃ c msg, rw.1 = inr (reply c (ErrorBody msg)) ∧ (c = 400 ∨ c = 409)) ∧
  (is_Some (up_file req) → ¬ InvalidInput req →
   rw = (inr (reply 409 (ErrorBody conflict_message)),
         {| db := s; trace := [DbFindUnique (up_userId req) ty] |})).
Proof.
  intros Hty Hs Hst. cbv zeta. unfold run, uploadHandler.
  rewrite try_catch_run, Hty. simpl. rewrite parse_DocumentType_name.
  destruct (up_file req) as [file|] eqn:Hf.
  2: { simpl. split_and!; [done|constructor|by eauto|]. by intros [? ?]. }
  pose proof (valid_input_tests req file ty) as Hvalid.
  destruct (is_id_document ty && negb _) eqn:Hm.
  { simpl. split_and!; [done|constructor|by eauto|]. intros _ Hv.
    by destruct (Hvalid Hv Hf Hty). }
  destruct (is_id_document ty && (_ <? _)%N) eqn:Hsz.
  { simpl. split_and!; [done|constructor|by eauto|]. intros _ Hv.
    by destruct (Hvalid Hv Hf Hty). }
  rewrite bind_run, findUnique_run. simpl. rewrite Hs. simpl. rewrite Hst.
  simpl. split_and!; [done|by repeat constructor|by eauto|done].
Qed.

(** What multer lets through is what it does not refuse. *)
Lemma multer_refusal_None req :
  multer_refusal (up_file req) = None ↔ accepted_by_multer (Upload req).
Proof.
  unfold multer_refusal, accepted_by_multer.
  destruct (up_file req) as [file|]; [|done].
  destruct (fileFilter file); simpl; [|split; [done|by intros [? _]]].
  destruct (fileSizeLimit <? file_size file)%N eqn:Hsz.
  - apply N.ltb_lt in Hsz. split; [done|]. intros [_ Hle].
    by apply N.lt_nge in Hsz.
  - by apply N.ltb_ge in Hsz.
Qed.

Lemma multer_refusal_size file :
  fileFilter file = true → (fileSizeLimit < file_size file)%N →
  multer_refusal (Some file) = Some {| message := "File too large" |}.
Proof.
  intros Hok Hsz. unfold multer_refusal. rewrite Hok. simpl.
  apply N.ltb_lt in Hsz. by rewrite Hsz.
Qed.

(** The route, case by case. *)
Lemma uploadRoute_run production env req s :
  run (uploadRoute production env req) s =
  match multer_refusal (up_file req) with
  | Some err =>
      (inr (errorHandler production err), {| db := s; trace := [] |})
  | None => run (uploadHandler env req) s
  end.
Proof. unfold run, uploadRoute. by destruct (multer_refusal _). Qed.

(** C7, as stated, fails on the route: a PNG passport of 12MB is an
    identity document above 5MB, multer refuses it for its own limit of
    10MB, the handler with its 400 is not run, and the error handler
    answers 500.  Nothing is read or written. *)
Lemma oversized_passport_is_500 :
  let rw := run (uploadRoute false env_verified oversized_passport_upload) ∅ in
  InvalidInput oversized_passport_upload ∧
  rw = (inr (reply 500 (ErrorBody "File too large")),
        {| db := ∅; trace := [] |}) ∧
  ¬ invalid_input_as_specified rw ∅.
Proof.
  intros rw.
  assert (rw = (inr (reply 500 (ErrorBody "File too large")),
                {| db := ∅; trace := [] |})) as Hrw by by vm_compute.
  split_and!; [|done|].
  - eapply (too_large _ _ PASSPORT); [reflexivity|reflexivity|by left|].
    by vm_compute.
  - intros [[msg Hmsg] _]. rewrite Hrw in Hmsg. by vm_compute in Hmsg.
Qed.

(** C7, amended: an upload with an unknown category, or an identity
    document that is not a JPEG/PNG image, or an identity document above
    5MB, makes no access to the table on the route: the request's log is
    empty and the table is the one it was.  When multer lets the request
    through (no file, or a JPEG, PNG or PDF of at most 10MB) the answer is
    400 with one of the handler's four messages; a file of an allowed media
    type above 10MB is refused by multer and answered 500 by the error
    handler, with multer's message outside production. *)
Theorem upload_route_invalid_input production env req s :
  InvalidInput req →
  let rw := run (uploadRoute production env req) s in
  rw.2 = {| db := s; trace := [] |} ∧
  (accepted_by_multer (Upload req) →
   ∃ msg,
     rw.1 = inr (reply 400 (ErrorBody msg)) ∧
     msg ∈ ["Please select a file to upload"; "Invalid document type";
            "Passport and Driver's Licence must be uploaded as JPEG or PNG images. PDF files are not supported for ID documents.";
            "Image file is too large. Please upload an image smaller than 5MB."]) ∧
  (∀ file,
     up_file req = Some file →
     mimetype file ∈ allowedMimes →
     (10 * 1024 * 1024 < file_size file)%N →
     rw.1 = inr (reply 500
                   (ErrorBody
                      (if production
                       then "An unexpected error occurred. Please try again."
                       else "File too large")))).
Proof.
  intros Hinv rw.
  destruct (uploadHandler_invalid_input env req s Hinv) as (msg & Hrun & Hmsg).
  unfold rw. rewrite uploadRoute_run. split_and!.
  - destruct (multer_refusal _); [done|]. by rewrite Hrun.
  - intros Hok. apply multer_refusal_None in Hok. rewrite Hok, Hrun.
    by exists msg.
  - intros file Hf Hmime Hsz.
    rewrite Hf, (multer_refusal_size file); [by destruct production| |done].
    by apply bool_decide_eq_true.
Qed.

(** C1, as stated, fails: alice's passport is [DONE], and her upload of a
    passport as a PDF is rejected by the validation of the media type,
    which comes before the lookup of the existing row: the answer is 400,
    not 409. *)
Lemma invalid_upload_onto_done_is_400 :
  let rw := run (uploadRoute false env_verified passport_pdf_upload)
              verified_passport_store in
  (status <$> verified_passport_store !! ("alice", PASSPORT)) = Some DONE ∧
  rw = (inr (reply 400
               (ErrorBody "Passport and Driver's Licence must be uploaded as JPEG or PNG images. PDF files are not supported for ID documents.")),
        {| db := verified_passport_store; trace := [] |}) ∧
  ¬ conflict_as_specified rw verified_passport_store.
Proof.
  intros rw.
  assert (rw.1 = inr (reply 400
               (ErrorBody "Passport and Driver's Licence must be uploaded as JPEG or PNG images. PDF files are not supported for ID documents.")))
    as Hrw by by vm_compute.
  split_and!; [by vm_compute|by vm_compute|].
  intros [[msg Hmsg] _]. rewrite Hrw in Hmsg. by vm_compute in Hmsg.
Qed.

(** C1, amended: an upload for an (owner, category) whose stored document
    is [DONE] is rejected with an error answer and leaves the table exactly
    as it was, without a write.  When multer lets the request through, the
    answer is 409 Conflict, after the lookup of the existing row as the
    only store access, if the request carries a file and passes input
    validation; it is 400, before that lookup, if the request has no file
    or fails input validation.  A file of an allowed media type above 10MB
    is refused by multer: the handler is not run and the error handler
    answers 500. *)
Theorem upload_route_done_conflict production env req s ty d :
  up_documentType req = Some (DocumentType_name ty) →
  s !! (up_userId req, ty) = Some d →
  status d = DONE →
  let rw := run (uploadRoute production env req) s in
  db rw.2 = s ∧
  Forall (λ ev, is_write ev = false) (trace rw.2) ∧
  (∃ c msg,
     rw.1 = inr (reply c (ErrorBody msg)) ∧ (c = 400 ∨ c = 409 ∨ c = 500)) ∧
  (accepted_by_multer (Upload req) →
   (is_Some (up_file req) → ¬ InvalidInput req →
    rw = (inr (reply 409
                 (ErrorBody "This document type has already been verified. Please contact support if you need to re-submit.")),
          {| db := s; trace := [DbFindUnique (up_userId req) ty] |})) ∧
   (up_file req = None ∨ InvalidInput req →
    ∃ msg,
      rw = (inr (reply 400 (ErrorBody msg)), {| db := s; trace := [] |}))) ∧
  (∀ file,
     up_file req = Some file →
     mimetype file ∈ allowedMimes →
     (10 * 1024 * 1024 < file_size file)%N →
     rw = (inr (reply 500
                  (ErrorBody
                     (if production
                      then "An unexpected error occurred. Please try again."
                      else "File too large"))),
           {| db := s; trace := [] |})).
Proof.
  intros Hty Hs Hst rw.
  destruct (uploadHandler_on_done env req s ty d Hty Hs Hst)
    as (Hdb & Hlog & (c & msg & Hresp & Hc) & Hconflict).
  assert (∀ file,
    up_file req = Some file → mimetype file ∈ allowedMimes →
    (10 * 1024 * 1024 < file_size file)%N →
    multer_refusal (up_file req) = Some {| message := "File too large" |})
    as Hsize.
  { intros file Hf Hmime Hsz. rewrite Hf.
    apply multer_refusal_size; [|done]. by apply bool_decide_eq_true. }
  unfold rw. rewrite uploadRoute_run.
  destruct (multer_refusal (up_file req)) as [err|] eqn:Hm.
  - split_and!; [done|constructor| | |].
    + unfold errorHandler. eauto 10.
    + intros Hok. apply multer_refusal_None in Hok. congruence.
    + intros file Hf Hmime Hsz.
      specialize (Hsize file Hf Hmime Hsz). simplify_eq.
      by destruct production.
  - split_and!; [done|done| | |].
    + exists c, msg. split; [done|]. destruct Hc; auto.
    + intros _. split; [done|]. intros [Hnone | Hinv].
      * unfold run, uploadHandler. rewrite try_catch_run, Hnone. eauto.
      * destruct (uploadHandler_invalid_input env req s Hinv)
          as (msg' & Hrun & _). eauto.
    + intros file Hf Hmime Hsz. by specialize (Hsize file Hf Hmime Hsz).
Qed.

(** ** Properties of the status endpoint *)

(** C4: when the poll of a [PROCESSING] document of the requester throws,
    the handler answers 200 with the stored state, the table is the one it
    was, and the request made no write: its log is the lookup and the
    poll. *)
Theorem status_poll_failure_keeps_state env s uid i ty d v e :
  find_first i uid s = Some (ty, d) →
  status d = PROCESSING →
  documentVerifyId d = Some v → v ≠ "" →
  getVerificationResult env v = inl e →
  run (statusHandler env uid i) s =
  (inr (reply 200 (StatusBody i PROCESSING false)),
   {| db := s; trace := [DbFindFirst i uid; CallPoll v] |}).
Proof.
  intros Hfound Hst Hv Hne Hpoll.
  destruct (find_first_Some _ _ _ _ _ Hfound) as [_ Hid].
  unfold run, statusHandler.
  rewrite try_catch_run, bind_run, findFirst_run. simpl.
  rewrite Hfound, bind_run, Hst, Hv. simpl.
  rewrite bool_decide_eq_false_2 by done. simpl.
  unfold poll_for_update. rewrite try_catch_run, bind_run, await_run, Hpoll.
  simpl. by rewrite Hid.
Qed.

(** A status request on a document that is not [PROCESSING] reads the row
    and answers with its state: no poll, no write. *)
Lemma status_not_processing env s uid i ty d :
  find_first i uid s = Some (ty, d) →
  status d ≠ PROCESSING →
  run (statusHandler env uid i) s =
  (inr (reply 200 (StatusBody i (status d) (has_result (status d)))),
   {| db := s; trace := [DbFindFirst i uid] |}).
Proof.
  intros Hfound Hst.
  destruct (find_first_Some _ _ _ _ _ Hfound) as [_ Hid].
  unfold run, statusHandler.
  rewrite try_catch_run, bind_run, findFirst_run. simpl.
  rewrite Hfound, bind_run. rewrite bool_decide_eq_false_2 by done.
  simpl. by rewrite Hid.
Qed.

Lemma status_requests_terminal envs s uid i ty d :
  find_first i uid s = Some (ty, d) →
  status d ≠ PROCESSING →
  Forall (λ rw,
    rw = (inr (reply 200 (StatusBody i (status d) (has_result (status d)))),
          {| db := s; trace := [DbFindFirst i uid] |}))
    (status_requests envs uid i s).
Proof.
  intros Hfound Hst. induction envs as [|env envs IH]; simpl; [constructor|].
  rewrite (status_not_processing env s uid i ty d) by done.
  by constructor.
Qed.

Lemma poll_for_update_terminal env d v r w k :
  db w !! k = Some d →
  getVerificationResult env v = inr r →
  result_status r ≠ VS_PROCESSING →
  poll_for_update env d v w =
  (inr (Some (reply 200
                (StatusBody (doc_id d)
                   (VerifyStatus_to_status (result_status r)) true))),
   {| db := update_where_id (doc_id d) (poll_data r) (now env) (db w);
      trace := (trace w ++ [CallPoll v]) ++ [DbUpdate (doc_id d)] |}).
Proof.
  intros Hrow Hpoll Hterm. unfold poll_for_update.
  rewrite try_catch_run, bind_run, await_run, Hpoll. simpl.
  destruct (result_status r) eqn:Hrs; [done| |];
    by rewrite bind_run, (update_run env (doc_id d) _ _ k d).
Qed.

(** C5: when the poll of a [PROCESSING] document answers [DONE] or
    [FAILED], the handler writes that state and the payload with one
    update (the only write of the request) and answers with the terminal
    state; every later status request, whatever the gateway would answer,
    only reads the row (no poll, no write), leaves the table as it is and
    gives the same terminal state.  The state written and answered is
    [DONE] for an answer [DONE] and [FAILED] for an answer [FAILED]; the
    row after the update is the row before it with that state, the whole
    answer of the poll as [verificationResult] (its id, its status and
    every further field, in this order) and the time of the write, and
    rows with another id are as they were. *)
Theorem status_poll_terminal_once env s uid i ty d v r :
  find_first i uid s = Some (ty, d) →
  status d = PROCESSING →
  documentVerifyId d = Some v → v ≠ "" →
  getVerificationResult env v = inr r →
  result_status r ≠ VS_PROCESSING →
  let st := VerifyStatus_to_status (result_status r) in
  let s' := update_where_id i (poll_data r) (now env) s in
  run (statusHandler env uid i) s =
    (inr (reply 200 (StatusBody i st true)),
     {| db := s'; trace := [DbFindFirst i uid; CallPoll v; DbUpdate i] |}) ∧
  (∃ d', find_first i uid s' = Some (ty, d') ∧ status d' = st ∧
         verificationResult d' = Some (VerifyStatusResult_to_json r)) ∧
  (st = DONE ∨ st = FAILED) ∧
  (∀ envs,
    Forall (λ rw,
      rw = (inr (reply 200 (StatusBody i st true)),
            {| db := s'; trace := [DbFindFirst i uid] |}))
      (status_requests envs uid i s')) ∧
  (result_status r = VS_DONE → st = DONE) ∧
  (result_status r = VS_FAILED → st = FAILED) ∧
  s' !! (uid, ty) =
    Some {| doc_id := i; fileName := fileName d; mimeType := mimeType d;
            status := match result_status r with
                      | VS_DONE => DONE
                      | VS_FAILED => FAILED
                      | VS_PROCESSING => PROCESSING
                      end;
            documentVerifyId := Some v; errorMessage := errorMessage d;
            verificationResult :=
              Some (JObj (("documentVerifyId",
                           JStr (result_documentVerifyId r)) ::
                          ("status",
                           JStr match result_status r with
                                | VS_DONE => "DONE"
                                | VS_FAILED => "FAILED"
                                | VS_PROCESSING => "PROCESSING"
                                end) ::
                          result_rest r));
            classificationResult := classificationResult d;
            createdAt := createdAt d; updatedAt := now env |} ∧
  (∀ k d0, s !! k = Some d0 → doc_id d0 ≠ i → s' !! k = Some d0).
Proof.
  intros Hfound Hst Hv Hne Hpoll Hterm st s'.
  destruct (find_first_Some _ _ _ _ _ Hfound) as [Hrow Hid].
  assert (find_first i uid s' = Some (ty, apply_data (poll_data r) (now env) d))
    as Hfound'.
  { unfold s'. rewrite find_first_update_where_id, Hfound. simpl.
    by rewrite decide_True. }
  assert (st = DONE ∨ st = FAILED) as Hst'.
  { unfold st. destruct (result_status r); auto. done. }
  split_and!.
  - unfold run, statusHandler.
    rewrite try_catch_run, bind_run, findFirst_run. simpl.
    rewrite Hfound, bind_run, Hst, Hv. simpl.
    rewrite bool_decide_eq_false_2 by done. simpl.
    rewrite (poll_for_update_terminal env d v r _ (uid, ty)) by done.
    simpl. by rewrite Hid.
  - eexists. split; [done|]. done.
  - done.
  - intros envs.
    pose proof (status_requests_terminal envs s' uid i ty _ Hfound') as Hall.
    simpl in Hall. fold st in Hall.
    assert (has_result st = true) as Hres by (by destruct Hst' as [-> | ->]).
    rewrite Hres in Hall. apply Hall. by destruct Hst' as [-> | ->].
  - unfold st. by intros ->.
  - unfold st. by intros ->.
  - unfold s'. rewrite (lookup_update_where_id_hit s i _ _ _ d) by done.
    unfold apply_data, poll_data. cbn. rewrite Hid, Hv. reflexivity.
  - intros k d0 Hk Hd0. unfold s'. rewrite lookup_update_where_id, Hk.
    cbn. by rewrite decide_False.
Qed.

(** ** Properties of the result endpoint *)

(** C9, as stated, fails: a document in [CLASSIFICATION_FAILED] is
    terminal in the specification's sense, and the result endpoint still
    answers 400 "Verification is still in progress". *)
Lemma result_classification_failed_is_400 :
  run (resultHandler "alice" "doc-7") rejected_store =
    (inr (reply 400 (ErrorBody "Verification is still in progress")),
     {| db := rejected_store; trace := [DbFindFirst "doc-7" "alice"] |}) ∧
  ¬ result_endpoint_as_specified rejected_store "alice" "doc-7".
Proof.
  split; [by vm_compute|].
  intros Hspec. specialize (Hspec PASSPORT rejected_passport).
  vm_compute in Hspec. by specialize (Hspec eq_refl).
Qed.

(** C9, amended: for a document of the requester the result endpoint
    answers 400 exactly when the state is neither [DONE] nor [FAILED]
    ([CLASSIFICATION_FAILED] included), and otherwise 200 with the selected
    document, which carries [verificationResult] and
    [classificationResult] as stored; the request only reads. *)
Theorem result_endpoint_done_or_failed s uid i ty d :
  find_first i uid s = Some (ty, d) →
  run (resultHandler uid i) s =
    (inr (if has_result (status d)
          then reply 200 (ResultBody (select_result ty d))
          else reply 400 (ErrorBody "Verification is still in progress")),
     {| db := s; trace := [DbFindFirst i uid] |}) ∧
  (has_result (status d) = true ↔ status d = DONE ∨ status d = FAILED) ∧
  res_verificationResult (select_result ty d) = verificationResult d ∧
  res_classificationResult (select_result ty d) = classificationResult d.
Proof.
  intros Hfound. split_and!; [|by destruct (status d); simpl; intuition|done..].
  unfold run, resultHandler.
  rewrite try_catch_run, bind_run, findFirst_run. simpl. rewrite Hfound.
  by destruct (status d).
Qed.

(** ** Owner scoping *)

(** C10: for a requester who owns no document with the id, the status and
    the result endpoint answer 404 "Document not found" after one scoped
    lookup, with no poll and no write, and that is answer for answer what
    they give on any table in which no document at all has that id. *)
Theorem foreign_document_not_found env s uid i :
  (∀ ty d, s !! (uid, ty) = Some d → doc_id d ≠ i) →
  run (statusHandler env uid i) s =
    (inr not_found, {| db := s; trace := [DbFindFirst i uid] |}) ∧
  run (resultHandler uid i) s =
    (inr not_found, {| db := s; trace := [DbFindFirst i uid] |}) ∧
  ∀ env' (s' : Store),
    (∀ k d, s' !! k = Some d → doc_id d ≠ i) →
    (run (statusHandler env' uid i) s').1 = (run (statusHandler env uid i) s).1 ∧
    trace (run (statusHandler env' uid i) s').2 =
      trace (run (statusHandler env uid i) s).2 ∧
    (run (resultHandler uid i) s').1 = (run (resultHandler uid i) s).1 ∧
    trace (run (resultHandler uid i) s').2 =
      trace (run (resultHandler uid i) s).2.
Proof.
  intros Hown.
  assert (∀ env0 (s0 : Store),
    (∀ ty d, s0 !! (uid, ty) = Some d → doc_id d ≠ i) →
    run (statusHandler env0 uid i) s0 =
      (inr not_found, {| db := s0; trace := [DbFindFirst i uid] |}) ∧
    run (resultHandler uid i) s0 =
      (inr not_found, {| db := s0; trace := [DbFindFirst i uid] |})) as Hnf.
  { intros env0 s0 H0. apply find_first_None in H0.
    unfold run, statusHandler, resultHandler.
    rewrite !try_catch_run, !bind_run, !findFirst_run. simpl.
    by rewrite H0. }
  destruct (Hnf env s Hown) as [Hst Hres]. split_and!; [done..|].
  intros env' s' Hnone.
  destruct (Hnf env' s') as [Hst' Hres']; [by eauto|].
  by rewrite Hst, Hres, Hst', Hres'.
Qed.

(** ** Running the upload branches *)

(** The row a step works on is still stored under its key after the
    updates made so far. *)
Ltac solve_row :=
  first
    [ apply lookup_insert_eq
    | eassumption
    | eapply lookup_update_where_id_hit; [solve_row|reflexivity] ].

Lemma submitDocumentForVerification_run env i b m c t w k d :
  db w !! k = Some d → doc_id d = i →
  submitDocumentForVerification env i b m c t w =
  let s1 := update_where_id i submitting_data (now env) (db w) in
  let tr :=
    (trace w ++ [DbUpdate i; CallSubmit ("doc-" ++ i); DbUpdate i])%list in
  match submitForVerification env b m c t ("doc-" ++ i) with
  | inr r =>
      (inr (),
       {| db := update_where_id i (processing_data r) (now env) s1;
          trace := tr |})
  | inl e =>
      (inl e,
       {| db := update_where_id i submit_failed_data (now env) s1;
          trace := tr |})
  end.
Proof.
  intros Hrow <-. unfold submitDocumentForVerification.
  rewrite try_catch_run, bind_run.
  erewrite update_run; [|solve_row|reflexivity].
  rewrite bind_run, await_run. simpl.
  destruct (submitForVerification _ _ _ _ _ _) as [e|r]; simpl.
  - rewrite bind_run. erewrite update_run; [|simpl; solve_row|reflexivity].
    simpl. by rewrite <- !app_assoc.
  - erewrite update_run; [|simpl; solve_row|reflexivity].
    simpl. by rewrite <- !app_assoc.
Qed.

Lemma upload_resume_run env uid file w :
  upload_resume env uid RESUME file w =
  let d0 := resume_row env (db w) uid file in
  let i := doc_id d0 in
  let s1 := update_where_id i submitting_data (now env)
              (<[(uid, RESUME) := d0]> (db w)) in
  match submitForVerification env (buffer_base64 file) (mimetype file)
          "PHL" "OTHER" ("doc-" ++ i) with
  | inr r =>
      let s2 := update_where_id i (processing_data r) (now env) s1 in
      (inr (reply 200
              (UploadBody "Resume uploaded and submitted for verification"
                 (summary_of true (find_by_id i s2)))),
       {| db := s2;
          trace := (trace w ++
                    [DbUpsert uid RESUME; DbUpdate i;
                     CallSubmit ("doc-" ++ i); DbUpdate i;
                     DbFindById i])%list |})
  | inl e =>
      let s3 := update_where_id i skipped_data (now env)
                  (update_where_id i submit_failed_data (now env) s1) in
      (inr (reply 200
              (UploadBody "Resume uploaded successfully"
                 (summary_of false (find_by_id i s3)))),
       {| db := s3;
          trace := (trace w ++
                    [DbUpsert uid RESUME; DbUpdate i;
                     CallSubmit ("doc-" ++ i); DbUpdate i; DbUpdate i;
                     DbFindById i])%list |})
  end.
Proof.
  unfold upload_resume, resume_row.
  rewrite bind_run, upsert_run. cbv beta iota zeta.
  fold (upserted env (db w) uid RESUME (reupload_resume_data file)
          (create_document env (originalname file) (mimetype file) SUBMITTING)).
  set (d0 := upserted _ _ _ _ _ _).
  rewrite try_catch_run, bind_run.
  erewrite (submitDocumentForVerification_run _ _ _ _ _ _ _ (uid, RESUME) d0);
    [|simpl; solve_row|reflexivity].
  cbv zeta. simpl db. simpl trace.
  destruct (submitForVerification _ _ _ _ _ _) as [e|r].
  - rewrite bind_run.
    erewrite (update_run _ _ _ _ (uid, RESUME)); [|simpl; solve_row|reflexivity].
    rewrite bind_run, findUniqueById_run. unfold mret, M_ret. simpl. by rewrite <- !app_assoc.
  - rewrite bind_run, findUniqueById_run. unfold mret, M_ret. simpl. by rewrite <- !app_assoc.
Qed.

Lemma upload_id_document_run env uid ty file w :
  upload_id_document env uid ty file w =
  let d0 := id_row env (db w) uid ty file in
  let i := doc_id d0 in
  let n := now env in
  let s0 := <[(uid, ty) := d0]> (db w) in
  match classifyDocument env (buffer_base64 file) (mimetype file) with
  | inl e =>
      (inr unclassifiable_response,
       {| db := update_where_id i unclassifiable_data n s0;
          trace := (trace w ++
                    [DbUpsert uid ty; CallClassify; DbUpdate i])%list |})
  | inr c =>
      let s1 := update_where_id i (classified_data c) n s0 in
      let detected := getDocumentDescription c in
      let expected := (classification_rule ty c).2 in
      if negb (classification_rule ty c).1 then
        (inr (rejected_response detected expected c),
         {| db := update_where_id i (rejected_data detected expected) n s1;
            trace := (trace w ++
                      [DbUpsert uid ty; CallClassify; DbUpdate i;
                       DbUpdate i])%list |})
      else
        let s2 := update_where_id i submitting_data n s1 in
        match submitForVerification env (buffer_base64 file) (mimetype file)
                (js_or (code <$> country c) "PHL")
                (js_or (code <$> documentType c) (DocumentType_name ty))
                ("doc-" ++ i) with
        | inr r =>
            let s3 := update_where_id i (processing_data r) n s2 in
            (inr (reply 200
                    (UploadBody
                       "Document uploaded and submitted for verification"
                       (summary_of true (find_by_id i s3)))),
             {| db := s3;
                trace := (trace w ++
                          [DbUpsert uid ty; CallClassify; DbUpdate i;
                           DbUpdate i; CallSubmit ("doc-" ++ i); DbUpdate i;
                           DbFindById i])%list |})
        | inl e =>
            (inr unclassifiable_response,
             {| db := update_where_id i unclassifiable_data n
                        (update_where_id i submit_failed_data n s2);
                trace := (trace w ++
                          [DbUpsert uid ty; CallClassify; DbUpdate i;
                           DbUpdate i; CallSubmit ("doc-" ++ i); DbUpdate i;
                           DbUpdate i])%list |})
        end
  end.
Proof.
  unfold upload_id_document, id_row.
  rewrite bind_run, upsert_run. cbv beta iota zeta.
  fold (upserted env (db w) uid ty (reupload_id_data file)
          (create_document env (originalname file) (mimetype file) CLASSIFYING)).
  set (d0 := upserted _ _ _ _ _ _).
  rewrite try_catch_run, bind_run, await_run.
  destruct (classifyDocument _ _ _) as [e|c].
  { rewrite bind_run.
    erewrite (update_run _ _ _ _ (uid, ty)); [|simpl; solve_row|reflexivity].
    unfold mret, M_ret. simpl. by rewrite <- !app_assoc. }
  rewrite bind_run.
  erewrite (update_run _ _ _ _ (uid, ty)); [|simpl; solve_row|reflexivity].
  simpl db. simpl trace.
  destruct (classification_rule ty c) as [isValid expected]. simpl fst. simpl snd.
  destruct isValid; simpl (negb _); cbv iota.
  - rewrite bind_run.
    erewrite (submitDocumentForVerification_run _ _ _ _ _ _ _ (uid, ty));
      [|simpl; solve_row|reflexivity].
    cbv zeta. simpl db. simpl trace.
    destruct (submitForVerification _ _ _ _ _ _) as [e|r].
    + rewrite bind_run.
      erewrite (update_run _ _ _ _ (uid, ty)); [|simpl; solve_row|reflexivity].
      unfold mret, M_ret. simpl. by rewrite <- !app_assoc.
    + rewrite bind_run, findUniqueById_run. unfold mret, M_ret. simpl. by rewrite <- !app_assoc.
  - rewrite bind_run.
    erewrite (update_run _ _ _ _ (uid, ty)); [|simpl; solve_row|reflexivity].
    unfold mret, M_ret. simpl. by rewrite <- !app_assoc.
Qed.

(** An upload that passes validation and does not meet a [DONE] row runs
    the branch of its category after the lookup of the existing row. *)
Lemma uploadHandler_accepted env s req file ty :
  up_file req = Some file →
  up_documentType req = Some (DocumentType_name ty) →
  ¬ InvalidInput req →
  status <$> s !! (up_userId req, ty) ≠ Some DONE →
  run (uploadHandler env req) s =
  (if is_id_document ty
   then upload_id_document env (up_userId req) ty file
   else upload_resume env (up_userId req) ty file)
    {| db := s; trace := [DbFindUnique (up_userId req) ty] |}.
Proof.
  intros Hf Hty Hv Hnd.
  destruct (valid_input_tests req file ty Hv Hf Hty) as [Hm Hsz].
  unfold run, uploadHandler. rewrite try_catch_run, Hf, Hty. simpl.
  rewrite parse_DocumentType_name, Hm, Hsz, bind_run, findUnique_run.
  simpl. rewrite bool_decide_eq_false_2 by done.
  destruct ty; simpl.
  - rewrite upload_id_document_run. cbv zeta.
    repeat case_match; done.
  - rewrite upload_id_document_run. cbv zeta.
    repeat case_match; done.
  - rewrite upload_resume_run. cbv zeta.
    repeat case_match; done.
Qed.

Lemma upload_request_valid uid file ty :
  (is_id_document ty = true →
   mimetype file ∈ imageMimes ∧ (file_size file ≤ 5 * 1024 * 1024)%N) →
  ¬ InvalidInput {| up_userId := uid; up_file := Some file;
                    up_documentType := Some (DocumentType_name ty) |}.
Proof.
  intros Hok [Hcat | f t Hf Ht Hid Hm | f t Hf Ht Hid Hsz]; simpl in *.
  - by destruct (Hcat ty).
  - assert (t = ty) as -> by (destruct t, ty; by simplify_eq).
    apply is_id_document_true in Hid. destruct (Hok Hid). by simplify_eq.
  - assert (t = ty) as -> by (destruct t, ty; by simplify_eq).
    apply is_id_document_true in Hid. destruct (Hok Hid) as [_ Hle].
    simplify_eq. by apply N.lt_nge in Hsz.
Qed.

(** Every row with the id carries the status an update by id has set. *)
Lemma find_by_id_updated_status (i : string) (dt : Data) (n : N) (s : Store)
    (st : DocumentStatus) (kd : string * DocumentType * Document) :
  data_status dt = Some st →
  find_by_id i (update_where_id i dt n s) = Some kd →
  status kd.2 = st.
Proof.
  intros Hdt Hfind. apply find_by_id_Some in Hfind as [Hrow Hid].
  rewrite lookup_update_where_id in Hrow.
  destruct (s !! kd.1) as [d0|]; [|done]. simpl in Hrow.
  injection Hrow as Hrow. destruct (decide (doc_id d0 = i)) as [|Hne].
  - rewrite <- Hrow. simpl. by rewrite Hdt.
  - by rewrite <- Hrow in Hid.
Qed.

(** C2: a résumé upload whose submission call throws ends with the row in
    state [DONE] (hence not [FAILED]) and with the skipped payload, whose
    [status] is "SKIPPED", as [verificationResult]; the answer is 200
    "Resume uploaded successfully" and reports the status [DONE]. *)
Theorem resume_submit_failure_ends_done env s uid file e :
  let req := {| up_userId := uid; up_file := Some file;
                up_documentType := Some "RESUME" |} in
  let i := doc_id (resume_row env s uid file) in
  status <$> s !! (uid, RESUME) ≠ Some DONE →
  submitForVerification env (buffer_base64 file) (mimetype file)
    "PHL" "OTHER" ("doc-" ++ i) = inl e →
  let rw := run (uploadHandler env req) s in
  (∃ summary,
     rw.1 = inr (reply 200 (UploadBody "Resume uploaded successfully" summary)) ∧
     sum_status summary = Some DONE) ∧
  trace rw.2 =
    [DbFindUnique uid RESUME; DbUpsert uid RESUME; DbUpdate i;
     CallSubmit ("doc-" ++ i); DbUpdate i; DbUpdate i; DbFindById i] ∧
  ∃ d, db rw.2 !! (uid, RESUME) = Some d ∧ doc_id d = i ∧
       status d = DONE ∧ status d ≠ FAILED ∧
       verificationResult d = Some skipped_result ∧
       json_field "status" skipped_result = Some (JStr "SKIPPED").
Proof.
  intros req i Hnd Hsubmit rw.
  assert (rw = upload_resume env uid RESUME file
                 {| db := s; trace := [DbFindUnique uid RESUME] |}) as Hrw.
  { unfold rw. rewrite (uploadHandler_accepted env s req file RESUME); try done.
    by apply (upload_request_valid uid file RESUME). }
  rewrite upload_resume_run in Hrw. cbv zeta in Hrw. simpl db in Hrw.
  fold i in Hrw. rewrite Hsubmit in Hrw. rewrite Hrw.
  cbn [fst snd db trace app].
  set (s3 := update_where_id i skipped_data _ _).
  assert (s3 !! (uid, RESUME) =
          Some (apply_data skipped_data (now env)
                  (apply_data submit_failed_data (now env)
                     (apply_data submitting_data (now env)
                        (resume_row env s uid file))))) as Hrow.
  { unfold s3. solve_row. }
  split_and!.
  - destruct (find_by_id_is_Some _ _ _ Hrow) as [kd Hkd].
    change (doc_id _) with i in Hkd. rewrite Hkd.
    eexists. split; [reflexivity|]. cbn. f_equal.
    by eapply (find_by_id_updated_status i skipped_data).
  - done.
  - eexists. split; [exact Hrow|]. by split_and!.
Qed.

Lemma classification_rule_accepts ty c :
  ty = PASSPORT ∨ ty = DRIVERS_LICENCE →
  (classification_rule ty c).1 = true ↔
  code <$> country c = Some "PHL" ∧
  code <$> documentType c = Some (DocumentType_name ty).
Proof.
  intros [-> | ->]; simpl;
    unfold isValidPhilippinesPassport, isValidPhilippinesDriversLicence;
    rewrite andb_true_iff, !bool_decide_eq_true; done.
Qed.

Lemma getDocumentDescription_names c cn tn :
  name <$> country c = Some cn → cn ≠ "" →
  name <$> documentType c = Some tn → tn ≠ "" →
  getDocumentDescription c = cn ++ " " ++ tn.
Proof.
  intros Hc Hcn Ht Htn. unfold getDocumentDescription.
  rewrite Hc, Ht. simpl. by rewrite !decide_False.
Qed.

(** C6: for an identity-document upload whose classification came back,
    the classification is accepted exactly when the country code is PHL and
    the document-type code is that of the category (PASSPORT, and
    DRIVERS_LICENCE for a driver's licence); the submission call is made
    exactly when it is accepted; when it is rejected the row ends in
    [CLASSIFICATION_FAILED] and the request makes no submission call.  The
    message of the rejected row is "The uploaded document appears to be a ",
    the detected country name, a space, the detected document-type name,
    ". Please upload a valid ", the name of what the category expects, and
    a full stop, where a name the classification lacks or gives empty is
    "Unknown Country" or "Unknown Document". *)
Theorem classification_rule_gates_submission env s uid ty file c :
  let req := {| up_userId := uid; up_file := Some file;
                up_documentType := Some (DocumentType_name ty) |} in
  let i := doc_id (id_row env s uid ty file) in
  ty = PASSPORT ∨ ty = DRIVERS_LICENCE →
  mimetype file ∈ imageMimes →
  (file_size file ≤ 5 * 1024 * 1024)%N →
  status <$> s !! (uid, ty) ≠ Some DONE →
  classifyDocument env (buffer_base64 file) (mimetype file) = inr c →
  let rw := run (uploadHandler env req) s in
  let accepted := (classification_rule ty c).1 in
  let expected := (classification_rule ty c).2 in
  let detected := getDocumentDescription c in
  (accepted = true ↔
   code <$> country c = Some "PHL" ∧
   code <$> documentType c = Some (DocumentType_name ty)) ∧
  (CallSubmit ("doc-" ++ i) ∈ trace rw.2 ↔ accepted = true) ∧
  (accepted = false →
   rw.1 = inr (rejected_response detected expected c) ∧
   trace rw.2 =
     [DbFindUnique uid ty; DbUpsert uid ty; CallClassify; DbUpdate i;
      DbUpdate i] ∧
   existsb is_submit (trace rw.2) = false ∧
   ∃ d, db rw.2 !! (uid, ty) = Some d ∧
        status d = CLASSIFICATION_FAILED ∧
        errorMessage d = Some (rejected_message detected expected)) ∧
  (∀ cn tn,
     name <$> country c = Some cn → cn ≠ "" →
     name <$> documentType c = Some tn → tn ≠ "" →
     detected = cn ++ " " ++ tn) ∧
  (accepted = false →
   ∃ d, db rw.2 !! (uid, ty) = Some d ∧
        status d = CLASSIFICATION_FAILED ∧
        errorMessage d =
        Some ("The uploaded document appears to be a " ++
              (match country c with
               | Some k => if decide (name k = "") then "Unknown Country"
                           else name k
               | None => "Unknown Country"
               end ++ " " ++
               match documentType c with
               | Some k => if decide (name k = "") then "Unknown Document"
                           else name k
               | None => "Unknown Document"
               end) ++
              ". Please upload a valid " ++
              (if decide (ty = PASSPORT) then "Philippines Passport"
               else "Philippines Driver's Licence") ++ ".") ∧
        rw.1 = inr (reply 400
                      (ClassificationErrorBody
                         ("Invalid document type. Expected " ++
                          (if decide (ty = PASSPORT)
                           then "Philippines Passport"
                           else "Philippines Driver's Licence") ++
                          " but detected " ++ detected ++
                          ". Please upload the correct document.") c))).
Proof.
  intros req i Hty Hmime Hsize Hnd Hclassify rw accepted expected detected.
  assert (rw = upload_id_document env uid ty file
                 {| db := s; trace := [DbFindUnique uid ty] |}) as Hrw.
  { unfold rw. rewrite (uploadHandler_accepted env s req file ty); try done.
    - apply is_id_document_true in Hty. simpl. by rewrite Hty.
    - by apply (upload_request_valid uid file ty). }
  rewrite upload_id_document_run in Hrw. cbv zeta in Hrw. simpl db in Hrw.
  fold i in Hrw. rewrite Hclassify in Hrw.
  fold accepted expected detected in Hrw.
  split_and!.
  - by apply classification_rule_accepts.
  - rewrite Hrw. destruct accepted; simpl (negb _); cbv iota.
    + split; [done|intros _].
      destruct (submitForVerification _ _ _ _ _ _); cbn [snd trace app];
        rewrite !elem_of_cons; auto 10.
    + cbn [snd trace app]. split; [|done]. intros Hin.
      repeat (apply elem_of_cons in Hin as [?|Hin]; [done|]).
      by apply elem_of_nil in Hin.
  - intros Hrej. rewrite Hrej in Hrw. simpl (negb _) in Hrw. cbv iota in Hrw.
    rewrite Hrw. cbn [fst snd db trace app]. split_and!; [done..|].
    eexists. split; [solve_row|]. done.
  - apply getDocumentDescription_names.
  - intros Hrej. rewrite Hrej in Hrw. simpl (negb _) in Hrw. cbv iota in Hrw.
    rewrite Hrw. cbn [fst snd db trace app].
    eexists. split; [solve_row|]. split; [done|].
    unfold expected, detected, rejected_response, rejected_message,
      getDocumentDescription, js_or.
    destruct Hty as [-> | ->];
      by destruct (country c), (documentType c).
Qed.

(** ** The classification payload *)

(** C8, as stated, fails: when the classify call itself throws, the
    upload reached the classify step and the row's [classificationResult]
    is [null]; the only update of the request names [status] and
    [errorMessage]. *)
Lemma classify_failure_stores_no_payload :
  let rw := run (uploadHandler env_down passport_upload) ∅ in
  trace rw.2 =
    [DbFindUnique "alice" PASSPORT; DbUpsert "alice" PASSPORT; CallClassify;
     DbUpdate "doc-1"] ∧
  (classificationResult <$> db rw.2 !! ("alice", PASSPORT)) = Some None ∧
  ¬ payload_persisted_as_specified rw "alice" PASSPORT.
Proof.
  intros rw.
  assert (trace rw.2 =
            [DbFindUnique "alice" PASSPORT; DbUpsert "alice" PASSPORT;
             CallClassify; DbUpdate "doc-1"]) as Htr by by vm_compute.
  split_and!; [done|by vm_compute|].
  intros Hspec. destruct Hspec as (d & Hd & Hsome).
  - rewrite Htr, !elem_of_cons. auto.
  - vm_compute in Hd. injection Hd as <-. by destruct Hsome.
Qed.

(** The payload names the classification it was made from. *)
Lemma ClassificationResult_to_json_inj c c' :
  ClassificationResult_to_json c = ClassificationResult_to_json c' → c = c'.
Proof.
  destruct c as [[[cc cn]|] [[tc tn]|]], c' as [[[cc' cn']|] [[tc' tn']|]];
    unfold ClassificationResult_to_json, CodeName_to_json; cbn;
    intros Heq; by simplify_eq.
Qed.

(** C8, amended: for an identity-document upload that reaches the classify
    step, a payload the classify call returns is what the row holds as
    [classificationResult] at the end of the request, whether the
    category's rule rejects it or accepts it and whatever the submission
    then does: the object with the country (code and name) under "country"
    and the document type (code and name) under "documentType", a part the
    answer lacks being left out, so that the stored payload belongs to no
    other classification.  When the classify call throws there is no
    payload and [classificationResult] is [null]. *)
Theorem classification_payload_persisted env s uid ty file :
  let req := {| up_userId := uid; up_file := Some file;
                up_documentType := Some (DocumentType_name ty) |} in
  ty = PASSPORT ∨ ty = DRIVERS_LICENCE →
  mimetype file ∈ imageMimes →
  (file_size file ≤ 5 * 1024 * 1024)%N →
  status <$> s !! (uid, ty) ≠ Some DONE →
  let rw := run (uploadHandler env req) s in
  CallClassify ∈ trace rw.2 ∧
  ∃ d, db rw.2 !! (uid, ty) = Some d ∧
       classificationResult d =
       match classifyDocument env (buffer_base64 file) (mimetype file) with
       | inr c =>
           Some (JObj
                   (match country c with
                    | Some k => [("country",
                                  JObj [("code", JStr (code k));
                                        ("name", JStr (name k))])]
                    | None => []
                    end ++
                    match documentType c with
                    | Some k => [("documentType",
                                  JObj [("code", JStr (code k));
                                        ("name", JStr (name k))])]
                    | None => []
                    end)%list)
       | inl _ => None
       end ∧
       (∀ c c',
          classifyDocument env (buffer_base64 file) (mimetype file) = inr c →
          classificationResult d = Some (ClassificationResult_to_json c') →
          c' = c).
Proof.
  intros req Hty Hmime Hsize Hnd rw.
  assert (rw = upload_id_document env uid ty file
                 {| db := s; trace := [DbFindUnique uid ty] |}) as Hrw.
  { unfold rw. rewrite (uploadHandler_accepted env s req file ty); try done.
    - apply is_id_document_true in Hty. simpl. by rewrite Hty.
    - by apply (upload_request_valid uid file ty). }
  rewrite upload_id_document_run in Hrw. cbv zeta in Hrw. simpl db in Hrw.
  rewrite Hrw.
  assert (∀ c0 c1 c',
    (inr c0 : JsError + ClassificationResult) = inr c1 →
    Some (ClassificationResult_to_json c0) =
      Some (ClassificationResult_to_json c') → c' = c1) as Hinj.
  { intros c0 c1 c' Hc Heq. symmetry.
    apply ClassificationResult_to_json_inj. congruence. }
  destruct (classifyDocument _ _ _) as [e|c].
  { cbn [fst snd db trace app]. split; [rewrite !elem_of_cons; auto|].
    eexists. split; [solve_row|]. unfold id_row, upserted.
    split; [by destruct (s !! (uid, ty))|]. intros c c' Hc. done. }
  destruct (negb _).
  { cbn [fst snd db trace app]. split; [rewrite !elem_of_cons; auto|].
    eexists. split; [solve_row|]. split; [done|]. apply Hinj. }
  destruct (submitForVerification _ _ _ _ _ _);
    (cbn [fst snd db trace app]; split; [rewrite !elem_of_cons; auto|];
     eexists; split; [solve_row|]; split; [done|]; apply Hinj).
Qed.

(** ** The error message of a stored document *)

(** C3 on the code: one résumé upload whose submission call throws, made
    on the empty table, leaves a row in state [DONE] that still carries the
    message the submission helper wrote when it marked the row [FAILED]; the
    update to [DONE] does not clear it.  The table is reachable and its row
    breaks the invariant. *)
Lemma resume_skipped_keeps_error_message :
  let s := db (run (uploadHandler env_down resume_upload) ∅).2 in
  reachable s ∧
  (∃ d, s !! ("alice", RESUME) = Some d ∧
        status d = DONE ∧
        errorMessage d = Some submit_failed_message ∧
        ¬ error_only_on_failure d).
Proof.
  split.
  - apply (reachable_step ∅ env_down (Upload resume_upload)).
    + constructor.
    + by vm_compute.
  - eexists. split; [by vm_compute|]. split_and!; [done..|].
    intros Hinv. by destruct Hinv.
Qed.

(** ** The theorems at concrete requests *)

(** A passport uploaded as a PDF. *)
Lemma upload_route_invalid_input_witness :
  let rw := run (uploadRoute false env_down passport_pdf_upload) ∅ in
  InvalidInput passport_pdf_upload ∧
  rw.1 = inr (reply 400
                (ErrorBody "Passport and Driver's Licence must be uploaded as JPEG or PNG images. PDF files are not supported for ID documents.")) ∧
  rw.2 = {| db := ∅; trace := [] |}.
Proof.
  assert (InvalidInput passport_pdf_upload) as Hinv.
  { eapply (not_an_image _ _ PASSPORT); [reflexivity|reflexivity|by left|].
    by apply (bool_decide_eq_false_1 _). }
  assert (accepted_by_multer (Upload passport_pdf_upload)) as Hok
    by (by vm_compute).
  pose proof (upload_route_invalid_input false env_down passport_pdf_upload ∅
                Hinv) as H.
  cbv zeta in H. destruct H as (Hw & H400 & _).
  destruct (H400 Hok) as (msg & Hmsg & _).
  intros rw. split_and!; [exact Hinv| |exact Hw].
  unfold rw. rewrite Hmsg. vm_compute in Hmsg. congruence.
Defined.

(** A second résumé after the first was verified. *)
Lemma upload_route_done_conflict_witness :
  run (uploadRoute false env_down resume_upload) verified_store =
  (inr (reply 409
          (ErrorBody "This document type has already been verified. Please contact support if you need to re-submit.")),
   {| db := verified_store; trace := [DbFindUnique "alice" RESUME] |}).
Proof.
  pose proof (upload_route_done_conflict false env_down resume_upload
                verified_store RESUME verified_resume eq_refl eq_refl eq_refl)
    as H.
  cbv zeta in H. destruct H as (_ & _ & _ & Hroute & _).
  assert (accepted_by_multer (Upload resume_upload)) as Hok by (by vm_compute).
  destruct (Hroute Hok) as [Hconflict _].
  apply Hconflict.
  - by exists resume_pdf.
  - by apply (upload_request_valid "alice" resume_pdf RESUME).
Defined.

(** A poll during an outage of the gateway. *)
Lemma status_poll_failure_keeps_state_witness :
  run (statusHandler env_down "alice" "doc-5") processing_store =
  (inr (reply 200 (StatusBody "doc-5" PROCESSING false)),
   {| db := processing_store;
      trace := [DbFindFirst "doc-5" "alice"; CallPoll "ver-5"] |}).
Proof.
  apply (status_poll_failure_keeps_state env_down processing_store "alice"
           "doc-5" PASSPORT processing_passport "ver-5"
           {| message := "Failed to get verification result: 503" |});
    by vm_compute.
Defined.

(** A poll once the verification is finished. *)
Lemma status_poll_terminal_once_witness :
  let rw := run (statusHandler env_verified "alice" "doc-5") processing_store in
  rw.1 = inr (reply 200 (StatusBody "doc-5" DONE true)) ∧
  trace rw.2 =
    [DbFindFirst "doc-5" "alice"; CallPoll "ver-5"; DbUpdate "doc-5"] ∧
  db rw.2 !! ("alice", PASSPORT) =
    Some {| doc_id := "doc-5"; fileName := "passport.png";
            mimeType := "image/png"; status := DONE;
            documentVerifyId := Some "ver-5"; errorMessage := None;
            verificationResult :=
              Some (JObj [("documentVerifyId", JStr "ver-5");
                          ("status", JStr "DONE"); ("score", JNum 97)]);
            classificationResult := None; createdAt := 10;
            updatedAt := 2000 |}.
Proof.
  pose proof (status_poll_terminal_once env_verified processing_store "alice"
                "doc-5" PASSPORT processing_passport "ver-5" verified_answer)
    as H.
  cbv zeta in H.
  assert (find_first "doc-5" "alice" processing_store =
            Some (PASSPORT, processing_passport)) as Hfound by (by vm_compute).
  assert ("ver-5" ≠ "") as Hne by done.
  assert (result_status verified_answer ≠ VS_PROCESSING) as Hterm by done.
  destruct (H Hfound eq_refl eq_refl Hne eq_refl Hterm)
    as (Hrun & _ & _ & _ & _ & _ & Hrow & _).
  intros rw. unfold rw. rewrite Hrun. cbn [fst snd db trace].
  split_and!; [reflexivity|reflexivity|exact Hrow].
Defined.

(** The result of a verified résumé. *)
Lemma result_endpoint_done_or_failed_witness :
  run (resultHandler "alice" "doc-3") verified_store =
  (inr (reply 200 (ResultBody (select_result RESUME verified_resume))),
   {| db := verified_store; trace := [DbFindFirst "doc-3" "alice"] |}).
Proof.
  apply (result_endpoint_done_or_failed verified_store "alice" "doc-3" RESUME
           verified_resume).
  by vm_compute.
Defined.

(** bob asks for a document of alice. *)
Lemma foreign_document_not_found_witness :
  run (statusHandler env_verified "bob" "doc-5") processing_store =
    (inr not_found,
     {| db := processing_store; trace := [DbFindFirst "doc-5" "bob"] |}) ∧
  run (resultHandler "bob" "doc-5") processing_store =
    (inr not_found,
     {| db := processing_store; trace := [DbFindFirst "doc-5" "bob"] |}).
Proof.
  assert (∀ ty d,
    processing_store !! ("bob", ty) = Some d → doc_id d ≠ "doc-5") as Hown.
  { intros ty d Hrow. by destruct ty; vm_compute in Hrow. }
  destruct (foreign_document_not_found env_verified processing_store "bob"
              "doc-5" Hown) as (Hstatus & Hresult & _).
  by split.
Defined.

(** A first résumé during an outage of the gateway. *)
Lemma resume_submit_failure_ends_done_witness :
  ∃ d, db (run (uploadHandler env_down resume_upload) ∅).2
         !! ("alice", RESUME) = Some d ∧
       status d = DONE ∧ verificationResult d = Some skipped_result.
Proof.
  pose proof (resume_submit_failure_ends_done env_down ∅ "alice" resume_pdf
                {| message := "Verification submission failed: 503" |}) as H.
  cbv zeta in H.
  assert (status <$> (∅ : Store) !! ("alice", RESUME) ≠ Some DONE) as Hnd
    by (by vm_compute).
  destruct (H Hnd eq_refl) as (_ & _ & d & Hrow & _ & Hst & _ & Hres & _).
  exists d. split_and!; [exact Hrow|exact Hst|exact Hres].
Defined.

(** An Australian driver's licence uploaded as a passport. *)
Lemma classification_rule_gates_submission_witness :
  let rw := run (uploadHandler env_foreign_licence passport_upload) ∅ in
  existsb is_submit (trace rw.2) = false ∧
  ∃ d, db rw.2 !! ("alice", PASSPORT) = Some d ∧
       status d = CLASSIFICATION_FAILED ∧
       errorMessage d =
       Some "The uploaded document appears to be a Australia Driver Licence. Please upload a valid Philippines Passport.".
Proof.
  pose proof (classification_rule_gates_submission env_foreign_licence ∅
                "alice" PASSPORT passport_scan
                {| country := Some {| code := "AUS"; name := "Australia" |};
                   documentType :=
                     Some {| code := "DRIVERS_LICENCE";
                             name := "Driver Licence" |} |}) as H.
  cbv zeta in H.
  assert (mimetype passport_scan ∈ imageMimes) as Hmime
    by (by apply (bool_decide_eq_true_1 _)).
  assert ((file_size passport_scan ≤ 5 * 1024 * 1024)%N) as Hsize
    by (by vm_compute).
  assert (status <$> (∅ : Store) !! ("alice", PASSPORT) ≠ Some DONE) as Hnd
    by (by vm_compute).
  destruct (H (or_introl eq_refl) Hmime Hsize Hnd eq_refl)
    as (_ & _ & Hrej & _ & Htext).
  destruct (Hrej eq_refl) as (_ & _ & Hnone & _).
  destruct (Htext eq_refl) as (d & Hrow & Hst & Hmsg & _).
  split; [exact Hnone|].
  exists d. split_and!; [exact Hrow|exact Hst|exact Hmsg].
Defined.

(** The payload of the rejected classification is kept. *)
Lemma classification_payload_persisted_witness :
  ∃ d, db (run (uploadHandler env_foreign_licence passport_upload) ∅).2
         !! ("alice", PASSPORT) = Some d ∧
       classificationResult d =
       Some (JObj [("country",
                    JObj [("code", JStr "AUS"); ("name", JStr "Australia")]);
                   ("documentType",
                    JObj [("code", JStr "DRIVERS_LICENCE");
                          ("name", JStr "Driver Licence")])]).
Proof.
  pose proof (classification_payload_persisted env_foreign_licence ∅ "alice"
                PASSPORT passport_scan) as H.
  cbv zeta in H.
  assert (mimetype passport_scan ∈ imageMimes) as Hmime
    by (by apply (bool_decide_eq_true_1 _)).
  assert ((file_size passport_scan ≤ 5 * 1024 * 1024)%N) as Hsize
    by (by vm_compute).
  assert (status <$> (∅ : Store) !! ("alice", PASSPORT) ≠ Some DONE) as Hnd
    by (by vm_compute).
  destruct (H (or_introl eq_refl) Hmime Hsize Hnd)
    as (_ & d & Hrow & Hpayload & _).
  exists d. split; [exact Hrow|exact Hpayload].
Defined.

(** * Further properties of the handlers *)

(** ** What a request does to the table *)

Implicit Types (s : Store) (d : Document) (k : string * DocumentType).
Implicit Types (dts : list Data) (dt : Data) (n : N) (i uid : string).
Implicit Types (ty : DocumentType) (env : Env) (file : File) (w : World).

Lemma is_id_document_false ty : is_id_document ty = false ↔ ty = RESUME.
Proof. by destruct ty. Qed.

Lemma upload_row_id env s uid ty file :
  ty ≠ RESUME → upload_row env s uid ty file = id_row env s uid ty file.
Proof. by destruct ty. Qed.

Lemma doc_id_row_after n dts d : doc_id (row_after n dts d) = doc_id d.
Proof.
  revert d. induction dts as [|dt dts IH]; intros d; [done|].
  simpl. by rewrite IH.
Qed.

(** Updates by id [i] rewrite the rows with that id and no other. *)
Lemma lookup_apply_updates i n dts (s : Store) k :
  apply_updates i n dts s !! k =
  (λ d, if decide (doc_id d = i) then row_after n dts d else d) <$> s !! k.
Proof.
  revert s. induction dts as [|dt dts IH]; intros s; simpl.
  - destruct (s !! k) as [d|]; [|done]. simpl. by destruct (decide _).
  - rewrite IH, lookup_update_where_id.
    destruct (s !! k) as [d|]; [|done]. simpl.
    destruct (decide (doc_id d = i)) as [Hi|Hi].
    + by rewrite decide_True.
    + by rewrite decide_False.
Qed.

Lemma lookup_apply_updates_hit i n dts (s : Store) k d :
  s !! k = Some d → doc_id d = i →
  apply_updates i n dts s !! k = Some (row_after n dts d).
Proof.
  intros Hk Hi. rewrite lookup_apply_updates, Hk. simpl.
  by rewrite decide_True.
Qed.

(** The two branches of an upload: the answer is 200 or 400, and the
    table is the upserted row with a script of updates run on it. *)
Lemma upload_branch_effect env uid ty file w :
  let rw := (if is_id_document ty
             then upload_id_document env uid ty file
             else upload_resume env uid ty file) w in
  let d0 := upload_row env (db w) uid ty file in
  (∃ resp, rw.1 = inr resp ∧ (http_status resp = 200 ∨ http_status resp = 400)) ∧
  ∃ dts,
    upload_script env file ty (doc_id d0) dts ∧
    db rw.2 =
      apply_updates (doc_id d0) (now env) dts (<[(uid, ty) := d0]> (db w)).
Proof.
  cbv zeta. destruct (is_id_document ty) eqn:Hid.
  - assert (ty ≠ RESUME) as Hty by (by destruct ty).
    rewrite upload_id_document_run, upload_row_id by done. cbv zeta.
    destruct (classifyDocument _ _ _) as [e|c] eqn:Hc.
    { split; [by eauto|]. eexists.
      split; [by eapply script_unclassifiable|done]. }
    destruct (classification_rule ty c).1 eqn:Hrule; simpl (negb _); cbv iota.
    + destruct (submitForVerification _ _ _ _ _ _) as [e|r] eqn:Hs.
      * split; [by eauto|]. eexists.
        split; [by eapply script_id_submit_failed|done].
      * split; [by eauto|]. eexists.
        split; [by eapply script_id_processing|done].
    + split; [by eauto|]. eexists.
      split; [by eapply script_rejected|done].
  - apply is_id_document_false in Hid as ->.
    rewrite upload_resume_run. cbv zeta. unfold upload_row. simpl.
    destruct (submitForVerification _ _ _ _ _ _) as [e|r] eqn:Hs.
    + split; [by eauto|]. eexists.
      split; [by eapply script_resume_skipped|done].
    + split; [by eauto|]. eexists.
      split; [by eapply script_resume_processing|done].
Qed.

(** The table after an upload. *)
Lemma uploadHandler_effect env req s :
  let rw := run (uploadHandler env req) s in
  db rw.2 = s ∨
  ∃ ty file dts,
    up_file req = Some file ∧
    up_documentType req ≫= parse_DocumentType = Some ty ∧
    status <$> s !! (up_userId req, ty) ≠ Some DONE ∧
    let d0 := upload_row env s (up_userId req) ty file in
    upload_script env file ty (doc_id d0) dts ∧
    db rw.2 =
      apply_updates (doc_id d0) (now env) dts
        (<[(up_userId req, ty) := d0]> s).
Proof.
  cbv zeta. unfold run, uploadHandler. rewrite try_catch_run.
  destruct (up_file req) as [file|]; [|by left].
  destruct (up_documentType req ≫= parse_DocumentType) as [ty|]; [|by left].
  destruct (is_id_document ty && negb _); [by left|].
  destruct (is_id_document ty && (_ <? _)%N); [by left|].
  rewrite bind_run, findUnique_run. cbn [db trace].
  destruct (bool_decide _) eqn:Hdone; [by left|].
  apply bool_decide_eq_false in Hdone. right. exists ty, file.
  pose proof (upload_branch_effect env (up_userId req) ty file
                {| db := s; trace := [] ++ [DbFindUnique (up_userId req) ty] |})
    as [[resp [Hresp _]] [dts [Hscript Hdb]]].
  cbn [db] in *. exists dts.
  match type of Hresp with
  | (?X).1 = _ => destruct X as [[e|r] w']
  end; simplify_eq/=; done.
Qed.

(** X1: every upload either leaves the table as it is, or makes one upsert
    of the requester's row of the requested category followed by one of six
    sequences of updates by that row's id, which the answers of the gateway
    select; the second happens only for a request with a file and a known
    category whose row is not [DONE].  The requester's row is then the
    upserted row with the sequence applied, and a row under another key
    with another id is as it was. *)
Theorem upload_effect env req s :
  let rw := run (uploadHandler env req) s in
  db rw.2 = s ∨
  ∃ ty file dts,
    up_file req = Some file ∧
    up_documentType req ≫= parse_DocumentType = Some ty ∧
    status <$> s !! (up_userId req, ty) ≠ Some DONE ∧
    let d0 := upload_row env s (up_userId req) ty file in
    upload_script env file ty (doc_id d0) dts ∧
    db rw.2 =
      apply_updates (doc_id d0) (now env) dts
        (<[(up_userId req, ty) := d0]> s) ∧
    db rw.2 !! (up_userId req, ty) = Some (row_after (now env) dts d0) ∧
    ∀ k d, s !! k = Some d → doc_id d ≠ doc_id d0 →
           k ≠ (up_userId req, ty) → db rw.2 !! k = Some d.
Proof.
  cbv zeta.
  destruct (uploadHandler_effect env req s)
    as [Hsame | (ty & file & dts & Hf & Hty & Hnd & Hscript & Hdb)];
    [by left|].
  right. exists ty, file, dts. split_and!; try done.
  - rewrite Hdb. apply lookup_apply_updates_hit; [apply lookup_insert_eq|done].
  - intros k d Hk Hid Hne.
    rewrite Hdb, lookup_apply_updates, lookup_insert_ne, Hk by done.
    cbn. by rewrite decide_False.
Qed.

(** The handler answers every upload it is given, with 200, 400 or 409. *)
Lemma uploadHandler_answered env req s :
  ∃ resp,
    (run (uploadHandler env req) s).1 = inr resp ∧
    (http_status resp = 200 ∨ http_status resp = 400 ∨
     http_status resp = 409).
Proof.
  unfold run, uploadHandler. rewrite try_catch_run.
  destruct (up_file req) as [file|]; [|by eauto].
  destruct (up_documentType req ≫= parse_DocumentType) as [ty|]; [|by eauto].
  destruct (is_id_document ty && negb _); [by eauto|].
  destruct (is_id_document ty && (_ <? _)%N); [by eauto|].
  rewrite bind_run, findUnique_run. cbn [db trace].
  destruct (bool_decide _); [by eauto 10|].
  pose proof (upload_branch_effect env (up_userId req) ty file
                {| db := s; trace := [] ++ [DbFindUnique (up_userId req) ty] |})
    as [[resp [Hresp Hcode]] _].
  match type of Hresp with
  | (?X).1 = _ => destruct X as [[e|r] w']
  end; simplify_eq/=. exists resp. split; [done|]. tauto.
Qed.

(** What multer refuses: a file of a media type outside its list, or of
    more than 10MB. *)
Lemma multer_refusal_Some req :
  is_Some (multer_refusal (up_file req)) ↔
  ∃ file, up_file req = Some file ∧
          (mimetype file ∉ allowedMimes ∨
           (10 * 1024 * 1024 < file_size file)%N).
Proof.
  unfold multer_refusal. destruct (up_file req) as [f|]; simpl.
  2: { split; [by intros [? ?]|by intros (? & ? & _)]. }
  unfold fileFilter, fileSizeLimit.
  destruct (decide (mimetype f ∈ allowedMimes)) as [Hin|Hout].
  - rewrite bool_decide_eq_true_2 by done. simpl.
    destruct (10 * 1024 * 1024 <? file_size f)%N eqn:Hsz.
    + apply N.ltb_lt in Hsz. split; [|by eauto]. intros _. exists f.
      split; [done|by right].
    + apply N.ltb_ge in Hsz. split; [by intros [? ?]|].
      intros (f' & Hf' & [Hn|Hlt]); simplify_eq; [done|].
      by apply N.lt_nge in Hlt.
  - rewrite bool_decide_eq_false_2 by done. simpl. split; [|by eauto].
    intros _. exists f. split; [done|by left].
Qed.

(** X2: every upload is answered on its route.  When multer lets the
    request through, the answer and the effect are those of the handler and
    the answer is 200, 400 or 409: no exception leaves the handler, and as
    the row the updates address is always stored, the 500 of the outer
    [catch] is not among the answers.  When multer refuses the file the
    handler is not run, the error handler answers 500 and nothing is read
    or written.  So 500 is the answer exactly for a file of a media type
    outside multer's list or of more than 10MB. *)
Theorem upload_always_answered production env req s :
  let rw := run (uploadRoute production env req) s in
  ∃ resp,
    rw.1 = inr resp ∧
    (accepted_by_multer (Upload req) →
     rw = run (uploadHandler env req) s ∧
     (http_status resp = 200 ∨ http_status resp = 400 ∨
      http_status resp = 409)) ∧
    (¬ accepted_by_multer (Upload req) →
     http_status resp = 500 ∧ rw.2 = {| db := s; trace := [] |}) ∧
    (http_status resp = 500 ↔
     ∃ file, up_file req = Some file ∧
             (mimetype file ∉ allowedMimes ∨
              (10 * 1024 * 1024 < file_size file)%N)).
Proof.
  intros rw. unfold rw. rewrite uploadRoute_run.
  pose proof (multer_refusal_None req) as Hnone.
  pose proof (multer_refusal_Some req) as Hsome.
  destruct (uploadHandler_answered env req s) as (resp & Hresp & Hcode).
  destruct (multer_refusal (up_file req)) as [err|].
  - exists (errorHandler production err). split_and!; [done| |done|].
    + intros Hok. by apply Hnone in Hok.
    + split; [intros _; by apply Hsome|done].
  - exists resp. split_and!; [done|done| |].
    + intros Hno. destruct Hno. by apply Hnone.
    + split.
      * intros H500. rewrite H500 in Hcode.
        by destruct Hcode as [?|[?|?]].
      * intros Hfile. apply Hsome in Hfile. by destruct Hfile.
Qed.

(** ** The status and result endpoints in full *)

(** The status handler, case by case. *)
Lemma statusHandler_run env uid i s :
  run (statusHandler env uid i) s =
  match find_first i uid s with
  | None => (inr not_found, {| db := s; trace := [DbFindFirst i uid] |})
  | Some (ty, d) =>
      if bool_decide (status d = PROCESSING) && truthy (documentVerifyId d)
      then
        let v := default "" (documentVerifyId d) in
        match getVerificationResult env v with
        | inl e =>
            (stored_status i d,
             {| db := s; trace := [DbFindFirst i uid; CallPoll v] |})
        | inr r =>
            match result_status r with
            | VS_PROCESSING =>
                (stored_status i d,
                 {| db := s; trace := [DbFindFirst i uid; CallPoll v] |})
            | _ =>
                (inr (reply 200
                        (StatusBody i
                           (VerifyStatus_to_status (result_status r)) true)),
                 {| db := update_where_id i (poll_data r) (now env) s;
                    trace := [DbFindFirst i uid; CallPoll v; DbUpdate i] |})
            end
        end
      else (stored_status i d, {| db := s; trace := [DbFindFirst i uid] |})
  end.
Proof.
  unfold run, statusHandler.
  rewrite try_catch_run, bind_run, findFirst_run. cbn [db trace app].
  destruct (find_first i uid s) as [[ty d]|] eqn:Hfound; [|done].
  destruct (find_first_Some _ _ _ _ _ Hfound) as [Hrow Hid].
  rewrite bind_run.
  destruct (bool_decide _ && truthy _); [|by rewrite Hid].
  cbv zeta. destruct (getVerificationResult env _) as [e|r] eqn:Hpoll.
  - unfold poll_for_update.
    rewrite try_catch_run, bind_run, await_run, Hpoll. cbn. by rewrite Hid.
  - destruct (result_status r) eqn:Hr.
    + unfold poll_for_update.
      rewrite try_catch_run, bind_run, await_run, Hpoll. cbn.
      rewrite Hr. cbn. by rewrite Hid.
    + rewrite (poll_for_update_terminal env d _ r _ (uid, ty));
        [|done|done|by rewrite Hr].
      cbn. by rewrite Hr, Hid.
    + rewrite (poll_for_update_terminal env d _ r _ (uid, ty));
        [|done|done|by rewrite Hr].
      cbn. by rewrite Hr, Hid.
Qed.

Lemma resultHandler_run uid i s :
  run (resultHandler uid i) s =
  (inr match find_first i uid s with
       | None => not_found
       | Some (ty, d) =>
           if has_result (status d)
           then reply 200 (ResultBody (select_result ty d))
           else reply 400 (ErrorBody "Verification is still in progress")
       end,
   {| db := s; trace := [DbFindFirst i uid] |}).
Proof.
  unfold run, resultHandler.
  rewrite try_catch_run, bind_run, findFirst_run. cbn [db trace app].
  destruct (find_first i uid s) as [[ty d]|]; [|done].
  by destruct (status d).
Qed.

(** X3: a status request writes nothing unless a poll of a [PROCESSING]
    row answers [DONE] or [FAILED]: when the row is in another state or
    has no verification id no poll is made, and when the poll answers
    [PROCESSING] the table stays as it is; the answer is then the stored
    state with [hasResult] telling whether it is [DONE] or [FAILED]. *)
Theorem status_without_terminal_answer env s uid i ty d :
  find_first i uid s = Some (ty, d) →
  let rw := run (statusHandler env uid i) s in
  (status d ≠ PROCESSING ∨ truthy (documentVerifyId d) = false →
   rw = (stored_status i d, {| db := s; trace := [DbFindFirst i uid] |})) ∧
  (∀ v r,
     status d = PROCESSING → documentVerifyId d = Some v → v ≠ "" →
     getVerificationResult env v = inr r →
     result_status r = VS_PROCESSING →
     rw = (stored_status i d,
           {| db := s; trace := [DbFindFirst i uid; CallPoll v] |})).
Proof.
  intros Hfound rw. unfold rw. rewrite statusHandler_run, Hfound. split.
  - intros [Hst|Hv].
    + by rewrite bool_decide_eq_false_2.
    + by rewrite Hv, andb_false_r.
  - intros v r Hst Hv Hne Hpoll Hr.
    rewrite Hst, Hv. cbn.
    rewrite (bool_decide_eq_false_2 (v = "")) by done. cbn.
    by rewrite Hpoll, Hr.
Qed.

(** The answer of a status request and the table it leaves. *)
Lemma statusHandler_answer env s uid i :
  let rw := run (statusHandler env uid i) s in
  (find_first i uid s = None ∧ find_first i uid (db rw.2) = None ∧
   rw.1 = inr not_found) ∨
  (∃ ty d',
     find_first i uid (db rw.2) = Some (ty, d') ∧
     rw.1 = stored_status i d').
Proof.
  cbv zeta. rewrite statusHandler_run.
  destruct (find_first i uid s) as [[ty d]|] eqn:Hfound; [|by left].
  right. exists ty.
  destruct (bool_decide _ && truthy _); [|by eauto].
  cbv zeta. destruct (getVerificationResult env _) as [e|r]; [by eauto|].
  destruct (result_status r) eqn:Hr; [by eauto| |];
    (cbn [fst snd db]; rewrite find_first_update_where_id, Hfound;
     destruct (find_first_Some _ _ _ _ _ Hfound) as [_ Hid];
     cbn; rewrite decide_True by done; eexists; split; [done|];
     unfold stored_status; cbn; by rewrite Hr).
Qed.

(** X4: the answer of the status endpoint is the state of the table the
    request leaves: either no row of the requester has the id, before and
    after, and the answer is 404, or the answer is 200 with the status of
    the row found after the request and [hasResult] set exactly for [DONE]
    and [FAILED]. *)
Theorem status_answer_matches_table env s uid i :
  let rw := run (statusHandler env uid i) s in
  (find_first i uid s = None ∧ find_first i uid (db rw.2) = None ∧
   rw.1 = inr not_found) ∨
  (∃ ty d',
     db rw.2 !! (uid, ty) = Some d' ∧ doc_id d' = i ∧
     find_first i uid (db rw.2) = Some (ty, d') ∧
     rw.1 = inr (reply 200
                   (StatusBody i (status d')
                      (bool_decide (status d' = DONE ∨ status d' = FAILED))))).
Proof.
  cbv zeta.
  destruct (statusHandler_answer env s uid i)
    as [Hnone | (ty & d' & Hfound & Hanswer)]; [by left|].
  right. exists ty, d'.
  destruct (find_first_Some _ _ _ _ _ Hfound) as [Hrow Hid].
  split_and!; [done..|].
  rewrite Hanswer. unfold stored_status, has_result.
  by destruct (status d').
Qed.

(** X5: the result endpoint never writes, and it agrees with the status
    endpoint: asked right after a status request, it answers 200 with the
    document in the state the status answer named when that answer had
    [hasResult] set, and 400 when it had not. *)
Theorem result_follows_status env s uid i id st hasResult :
  let after := db (run (statusHandler env uid i) s).2 in
  (run (statusHandler env uid i) s).1 =
    inr (reply 200 (StatusBody id st hasResult)) →
  db (run (resultHandler uid i) after).2 = after ∧
  if hasResult
  then ∃ doc,
         (run (resultHandler uid i) after).1 = inr (reply 200 (ResultBody doc)) ∧
         res_id doc = id ∧ res_status doc = st
  else (run (resultHandler uid i) after).1 =
       inr (reply 400 (ErrorBody "Verification is still in progress")).
Proof.
  intros after Hanswer. subst after. split; [by rewrite resultHandler_run|].
  destruct (statusHandler_answer env s uid i)
    as [(_ & _ & Hnf) | (ty & d' & Hfound & Hst)].
  { rewrite Hnf in Hanswer. discriminate. }
  rewrite Hst in Hanswer. unfold stored_status in Hanswer.
  injection Hanswer as <- <- <-.
  destruct (find_first_Some _ _ _ _ _ Hfound) as [_ Hid].
  rewrite resultHandler_run, Hfound. cbn [fst].
  destruct (has_result (status d')); [|done].
  eexists. split; [done|]. by split.
Qed.

(** ** Invariants of the table *)

Lemma script_settles env file ty i dts n d :
  upload_script env file ty i dts → settled (row_after n dts d).
Proof. destruct 1; unfold settled; cbn; eauto. Qed.

Lemma poll_data_settles r n d :
  result_status r ≠ VS_PROCESSING → settled (apply_data (poll_data r) n d).
Proof. unfold settled. cbn. destruct (result_status r); cbn; eauto. done. Qed.

Lemma settled_apply_updates s k0 d0 i n dts :
  (∀ k d, s !! k = Some d → settled d) →
  (∀ d, settled (row_after n dts d)) →
  doc_id d0 = i →
  ∀ k d, apply_updates i n dts (<[k0 := d0]> s) !! k = Some d → settled d.
Proof.
  intros Hs Hdts Hi k d. rewrite lookup_apply_updates, lookup_insert.
  destruct (decide (k0 = k)) as [->|Hne]; cbn.
  - rewrite decide_True by done. by intros [= <-].
  - destruct (s !! k) as [d'|] eqn:Hk; [|done]. cbn.
    destruct (decide (doc_id d' = i)); intros [= <-]; [done|by eapply Hs].
Qed.

(** The table after a status request. *)
Lemma statusHandler_effect env s uid i :
  let rw := run (statusHandler env uid i) s in
  db rw.2 = s ∨
  ∃ ty d v r,
    find_first i uid s = Some (ty, d) ∧
    status d = PROCESSING ∧ documentVerifyId d = Some v ∧
    getVerificationResult env v = inr r ∧
    result_status r ≠ VS_PROCESSING ∧
    db rw.2 = update_where_id i (poll_data r) (now env) s.
Proof.
  cbv zeta. rewrite statusHandler_run.
  destruct (find_first i uid s) as [[ty d]|] eqn:Hfound; [|by left].
  destruct (bool_decide (status d = PROCESSING)) eqn:Hst; [|by left].
  apply bool_decide_eq_true in Hst.
  destruct (documentVerifyId d) as [v|] eqn:Hv; [|by left]. cbn.
  destruct (negb _); [|by left]. cbn.
  destruct (getVerificationResult env v) as [e|r] eqn:Hpoll; [by left|].
  destruct (result_status r) eqn:Hr; [by left| |];
    (right; exists ty, d, v, r; rewrite Hr; by split_and!).
Qed.

Lemma settled_step env rq s :
  (∀ k d, s !! k = Some d → settled d) →
  ∀ k d, db (run (handle env rq) s).2 !! k = Some d → settled d.
Proof.
  intros Hs. destruct rq as [req|uid i|uid i]; cbn [handle].
  - destruct (uploadHandler_effect env req s)
      as [-> | (ty & file & dts & _ & _ & _ & Hscript & ->)]; [done|].
    apply settled_apply_updates; [done| |done].
    intros d. by eapply script_settles.
  - destruct (statusHandler_effect env s uid i)
      as [-> | (ty & d0 & v & r & _ & _ & _ & _ & Hr & ->)]; [done|].
    intros k d. rewrite lookup_update_where_id.
    destruct (s !! k) as [d'|] eqn:Hk; [|done]. cbn.
    destruct (decide _); intros [= <-];
      [by apply poll_data_settles|by eapply Hs].
  - by rewrite resultHandler_run.
Qed.

(** X6: no request leaves a row in a transient state: every row of a
    reachable table is [PROCESSING] with a verification id, [DONE] or
    [FAILED] with a verification payload, or [CLASSIFICATION_FAILED] with
    an error message; [PENDING], [CLASSIFYING] and [SUBMITTING] are seen
    only while a request runs. *)
Theorem reachable_rows_settled s k d :
  reachable s → s !! k = Some d → settled d.
Proof.
  intros Hreach. revert k d.
  induction Hreach as [|s env rq _ IH _]; intros k d.
  - by rewrite lookup_empty.
  - by apply settled_step.
Qed.

(** With unique ids the updates by an id rewrite one row. *)
Lemma apply_updates_one_row s k0 d0 i n dts :
  (∀ k d, s !! k = Some d → doc_id d = i → k = k0) →
  doc_id d0 = i →
  apply_updates i n dts (<[k0 := d0]> s) = <[k0 := row_after n dts d0]> s.
Proof.
  intros Hslot Hi. apply map_eq. intros k.
  rewrite lookup_apply_updates, !lookup_insert.
  destruct (decide (k0 = k)) as [->|Hne]; cbn.
  - by rewrite decide_True.
  - destruct (s !! k) as [d|] eqn:Hk; [|done]. cbn.
    rewrite decide_False; [done|]. intros Hd. by destruct Hne, (Hslot k d).
Qed.

Lemma ids_unique_insert s k0 d0 :
  ids_unique s →
  (∀ k d, s !! k = Some d → doc_id d = doc_id d0 → k = k0) →
  ids_unique (<[k0 := d0]> s).
Proof.
  intros Hu Hslot k1 k2 d1 d2. rewrite !lookup_insert.
  destruct (decide (k0 = k1)) as [<-|], (decide (k0 = k2)) as [<-|];
    try done.
  - intros [= <-] Hk2 Hid. symmetry. by eapply Hslot.
  - intros Hk1 [= <-] Hid. by eapply Hslot.
  - apply Hu.
Qed.

Lemma upload_row_doc_id env s uid ty file :
  doc_id (upload_row env s uid ty file) =
  match s !! (uid, ty) with Some old => doc_id old | None => newId env end.
Proof.
  unfold upload_row, id_row, resume_row, upserted.
  destruct ty; cbn; by destruct (s !! _).
Qed.

(** The id of the row an upload stores is that of no other row. *)
Lemma upload_slot env s uid ty file :
  ids_unique s → fresh_id (newId env) s →
  ∀ k d, s !! k = Some d →
         doc_id d = doc_id (upload_row env s uid ty file) → k = (uid, ty).
Proof.
  intros Hu Hfresh k d Hk. rewrite upload_row_doc_id.
  destruct (s !! (uid, ty)) as [old|] eqn:Hold.
  - intros Hid. by eapply Hu.
  - intros Hid. by destruct (Hfresh k d).
Qed.

(** An upload, on a table with unique ids and with a fresh id at hand,
    replaces one row or none. *)
Lemma uploadHandler_one_row env req s :
  ids_unique s → fresh_id (newId env) s →
  let s' := db (run (uploadHandler env req) s).2 in
  s' = s ∨
  ∃ ty file dts,
    up_file req = Some file ∧
    up_documentType req ≫= parse_DocumentType = Some ty ∧
    status <$> s !! (up_userId req, ty) ≠ Some DONE ∧
    upload_script env file ty
      (doc_id (upload_row env s (up_userId req) ty file)) dts ∧
    s' = <[(up_userId req, ty) :=
             row_after (now env) dts
               (upload_row env s (up_userId req) ty file)]> s.
Proof.
  intros Hu Hfresh. cbv zeta.
  destruct (uploadHandler_effect env req s)
    as [-> | (ty & file & dts & Hf & Hty & Hnd & Hscript & ->)]; [by left|].
  right. exists ty, file, dts. split_and!; [done..|].
  apply apply_updates_one_row; [|done]. intros k d Hk Hid.
  by eapply upload_slot.
Qed.

(** A status request, on a table with unique ids, rewrites the row it
    found or none. *)
Lemma statusHandler_one_row env s uid i :
  ids_unique s →
  let s' := db (run (statusHandler env uid i) s).2 in
  s' = s ∨
  ∃ ty d r,
    s !! (uid, ty) = Some d ∧ status d = PROCESSING ∧
    result_status r ≠ VS_PROCESSING ∧
    s' = <[(uid, ty) := apply_data (poll_data r) (now env) d]> s.
Proof.
  intros Hu. cbv zeta.
  destruct (statusHandler_effect env s uid i)
    as [-> | (ty & d & v & r & Hfound & Hst & _ & _ & Hr & ->)]; [by left|].
  right. exists ty, d, r.
  destruct (find_first_Some _ _ _ _ _ Hfound) as [Hrow Hid].
  split_and!; [done..|].
  rewrite <- (insert_id s (uid, ty) d) at 1 by done.
  apply (apply_updates_one_row s (uid, ty) d i (now env) [poll_data r]);
    [|done].
  intros k d' Hk Hd'. eapply Hu; [done..|congruence].
Qed.

Lemma one_row_ids_unique s k0 d0 d1 :
  ids_unique s →
  (∀ k d, s !! k = Some d → doc_id d = doc_id d0 → k = k0) →
  doc_id d1 = doc_id d0 →
  ids_unique (<[k0 := d1]> s).
Proof.
  intros Hu Hslot Hid. apply ids_unique_insert; [done|].
  intros k d Hk Hd. eapply Hslot; [done|congruence].
Qed.

Lemma ids_unique_step env rq s :
  ids_unique s → fresh_id (newId env) s →
  ids_unique (db (run (handle env rq) s).2).
Proof.
  intros Hu Hfresh. destruct rq as [req|uid i|uid i]; cbn [handle].
  - destruct (uploadHandler_one_row env req s Hu Hfresh)
      as [-> | (ty & file & dts & _ & _ & _ & _ & ->)]; [done|].
    eapply one_row_ids_unique; [done| |apply doc_id_row_after].
    intros k d Hk Hid. by eapply upload_slot.
  - destruct (statusHandler_one_row env s uid i Hu)
      as [-> | (ty & d & r & Hrow & _ & _ & ->)]; [done|].
    eapply (one_row_ids_unique s _ d); [done| |done].
    intros k d' Hk Hid. by eapply Hu.
  - by rewrite resultHandler_run.
Qed.

(** X7: on a table with unique ids, and with an id for a new row that no
    row has, a request changes no row of another user, an upload changes
    no row but the requester's row of the requested category, and the ids
    stay unique. *)
Theorem request_touches_own_row env rq s :
  ids_unique s → fresh_id (newId env) s →
  let s' := db (run (handle env rq) s).2 in
  ids_unique s' ∧
  (∀ k, k.1 ≠ requester rq → s' !! k = s !! k) ∧
  (∀ req k, rq = Upload req →
     up_documentType req ≫= parse_DocumentType ≠ Some k.2 →
     s' !! k = s !! k).
Proof.
  intros Hu Hfresh s'. split; [by apply ids_unique_step|].
  unfold s'. destruct rq as [req|uid i|uid i]; cbn [handle requester].
  - destruct (uploadHandler_one_row env req s Hu Hfresh)
      as [-> | (ty & file & dts & _ & Hty & _ & _ & ->)]; [done|].
    split.
    + intros k Hk. rewrite lookup_insert_ne; [done|]. by intros <-.
    + intros req' k [= <-] Hk. rewrite lookup_insert_ne; [done|].
      intros <-. by rewrite Hty in Hk.
  - destruct (statusHandler_one_row env s uid i Hu)
      as [-> | (ty & d & r & _ & _ & _ & ->)]; [done|].
    split; [|done].
    intros k Hk. rewrite lookup_insert_ne; [done|]. by intros <-.
  - by rewrite resultHandler_run.
Qed.

Lemma upload_row_clean env s uid ty file :
  errorMessage (upload_row env s uid ty file) = None.
Proof.
  unfold upload_row, id_row, resume_row, upserted.
  destruct ty; cbn; by destruct (s !! _).
Qed.

Lemma script_error_profile env file ty i dts n d :
  upload_script env file ty i dts → errorMessage d = None →
  error_profile (row_after n dts d).
Proof. destruct 1; unfold error_profile; cbn; eauto. Qed.

Lemma error_profile_step env rq s :
  ids_unique s → fresh_id (newId env) s →
  (∀ k d, s !! k = Some d → error_profile d) →
  ∀ k d, db (run (handle env rq) s).2 !! k = Some d → error_profile d.
Proof.
  intros Hu Hfresh Hs. destruct rq as [req|uid i|uid i]; cbn [handle].
  - destruct (uploadHandler_one_row env req s Hu Hfresh)
      as [-> | (ty & file & dts & _ & _ & _ & Hscript & ->)]; [done|].
    intros k d. rewrite lookup_insert.
    destruct (decide _); [|by apply Hs]. intros [= <-].
    eapply script_error_profile; [done|apply upload_row_clean].
  - destruct (statusHandler_one_row env s uid i Hu)
      as [-> | (ty & d0 & r & Hrow & Hst & Hr & ->)]; [done|].
    intros k d. rewrite lookup_insert.
    destruct (decide _); [|by apply Hs]. intros [= <-].
    specialize (Hs _ _ Hrow). unfold error_profile in *.
    rewrite Hst in Hs. cbn. destruct (result_status r); cbn; auto; done.
  - by rewrite resultHandler_run.
Qed.

(** X8: in the tables built with fresh ids the ids are unique and an error
    message is stored in two places only: on every
    [CLASSIFICATION_FAILED] row, and on a [DONE] row that carries the
    skipped payload (the message is then the submission-failure message);
    a [PROCESSING] or [FAILED] row has none. *)
Theorem reachable_fresh_error_profile s :
  reachable_fresh s →
  ids_unique s ∧ ∀ k d, s !! k = Some d → error_profile d.
Proof.
  induction 1 as [|s env rq _ [IHu IHp] Hfresh].
  - split; [|by intros k d; rewrite lookup_empty].
    intros k1 k2 d1 d2. by rewrite lookup_empty.
  - split; [by apply ids_unique_step|by apply error_profile_step].
Qed.

(** X23: a verified document is final: on a table with unique ids, and
    with an id for a new row that no row has, no upload, status or result
    request changes a row that is [DONE]. *)
Theorem done_row_is_final env rq s k d :
  ids_unique s → fresh_id (newId env) s →
  s !! k = Some d → status d = DONE →
  db (run (handle env rq) s).2 !! k = Some d.
Proof.
  intros Hu Hfresh Hrow Hdone. destruct rq as [req|uid i|uid i]; cbn [handle].
  - destruct (uploadHandler_one_row env req s Hu Hfresh)
      as [-> | (ty & file & dts & _ & _ & Hnd & _ & ->)]; [done|].
    rewrite lookup_insert_ne; [done|]. intros <-.
    rewrite Hrow in Hnd. cbn in Hnd. congruence.
  - destruct (statusHandler_one_row env s uid i Hu)
      as [-> | (ty & d0 & r & Hrow0 & Hst & _ & ->)]; [done|].
    rewrite lookup_insert_ne; [done|]. intros <-. congruence.
  - by rewrite resultHandler_run.
Qed.

(** ** The ways through an accepted upload *)

(** A row found by id after an update by that id has the update applied. *)
Lemma find_by_id_updated i dt n s
    (kd : string * DocumentType * Document) :
  find_by_id i (update_where_id i dt n s) = Some kd →
  ∃ d0, kd.2 = apply_data dt n d0.
Proof.
  intros Hfind. apply find_by_id_Some in Hfind as [Hrow Hid].
  rewrite lookup_update_where_id in Hrow.
  destruct (s !! kd.1) as [d0|]; [|done]. cbn in Hrow.
  injection Hrow as Hrow. destruct (decide (doc_id d0 = i)) as [|Hne].
  - by exists d0.
  - by rewrite <- Hrow in Hid.
Qed.

(** An accepted upload of an identity document runs the identity branch
    after the lookup of the existing row. *)
Lemma id_upload_run env s uid ty file :
  ty = PASSPORT ∨ ty = DRIVERS_LICENCE →
  mimetype file ∈ imageMimes →
  (file_size file ≤ 5 * 1024 * 1024)%N →
  status <$> s !! (uid, ty) ≠ Some DONE →
  run (uploadHandler env
         {| up_userId := uid; up_file := Some file;
            up_documentType := Some (DocumentType_name ty) |}) s =
  upload_id_document env uid ty file
    {| db := s; trace := [DbFindUnique uid ty] |}.
Proof.
  intros Hty Hmime Hsize Hnd.
  rewrite (uploadHandler_accepted env s _ file ty); try done.
  - apply is_id_document_true in Hty. cbn. by rewrite Hty.
  - by apply (upload_request_valid uid file ty).
Qed.

(** X9: an identity document whose classification is accepted and whose
    submission succeeds ends [PROCESSING] with the verification id the
    gateway gave, no error message, no verification payload yet and the
    classification as payload; the answer is 200 and reports that status
    and id. *)
Theorem id_upload_processing env s uid ty file c r :
  let req := {| up_userId := uid; up_file := Some file;
                up_documentType := Some (DocumentType_name ty) |} in
  let i := doc_id (id_row env s uid ty file) in
  ty = PASSPORT ∨ ty = DRIVERS_LICENCE →
  mimetype file ∈ imageMimes →
  (file_size file ≤ 5 * 1024 * 1024)%N →
  status <$> s !! (uid, ty) ≠ Some DONE →
  classifyDocument env (buffer_base64 file) (mimetype file) = inr c →
  (classification_rule ty c).1 = true →
  submitForVerification env (buffer_base64 file) (mimetype file)
    (js_or (code <$> country c) "PHL")
    (js_or (code <$> documentType c) (DocumentType_name ty))
    ("doc-" ++ i) = inr r →
  let rw := run (uploadHandler env req) s in
  (∃ summary,
     rw.1 = inr (reply 200
                   (UploadBody "Document uploaded and submitted for verification"
                      summary)) ∧
     sum_status summary = Some PROCESSING ∧
     sum_documentVerifyId summary = Some (Some (submit_documentVerifyId r))) ∧
  trace rw.2 =
    [DbFindUnique uid ty; DbUpsert uid ty; CallClassify; DbUpdate i;
     DbUpdate i; CallSubmit ("doc-" ++ i); DbUpdate i; DbFindById i] ∧
  ∃ d, db rw.2 !! (uid, ty) = Some d ∧ doc_id d = i ∧
       status d = PROCESSING ∧
       documentVerifyId d = Some (submit_documentVerifyId r) ∧
       errorMessage d = None ∧ verificationResult d = None ∧
       classificationResult d = Some (ClassificationResult_to_json c) ∧
       fileName d = originalname file ∧ mimeType d = mimetype file.
Proof.
  intros req i Hty Hmime Hsize Hnd Hclassify Hrule Hsubmit rw.
  unfold rw, req. rewrite id_upload_run by done.
  rewrite upload_id_document_run. cbv zeta. cbn [db].
  fold i. rewrite Hclassify, Hrule. simpl (negb _). cbv iota.
  rewrite Hsubmit. cbn [fst snd db trace app].
  set (s3 := update_where_id i (processing_data r) _ _).
  assert (∃ d0, s3 !! (uid, ty) = Some d0 ∧
                d0 = apply_data (processing_data r) (now env)
                       (apply_data submitting_data (now env)
                          (apply_data (classified_data c) (now env)
                             (id_row env s uid ty file)))) as (d & Hrow & Hd).
  { eexists. split; [unfold s3; solve_row|done]. }
  split_and!.
  - destruct (find_by_id_is_Some _ _ _ Hrow) as [kd Hkd].
    rewrite Hd in Hkd. change (doc_id _) with i in Hkd. rewrite Hkd.
    destruct (find_by_id_updated _ _ _ _ _ Hkd) as [d0 Hd0].
    eexists. split; [reflexivity|]. cbn. by rewrite Hd0.
  - done.
  - exists d. split; [done|]. rewrite Hd. split_and!; try done.
    all: unfold id_row, upserted; by destruct (s !! (uid, ty)).
Qed.

(** X10: an identity document whose classification is accepted and whose
    submission call throws does not end [FAILED]: the [catch] of the
    classification step runs after the submission helper has marked the row
    [FAILED], so the row ends [CLASSIFICATION_FAILED] with the
    could-not-classify message, the classification kept as payload, and
    the answer is the 400 of an unclassifiable document. *)
Theorem id_upload_submit_failure env s uid ty file c e :
  let req := {| up_userId := uid; up_file := Some file;
                up_documentType := Some (DocumentType_name ty) |} in
  let i := doc_id (id_row env s uid ty file) in
  ty = PASSPORT ∨ ty = DRIVERS_LICENCE →
  mimetype file ∈ imageMimes →
  (file_size file ≤ 5 * 1024 * 1024)%N →
  status <$> s !! (uid, ty) ≠ Some DONE →
  classifyDocument env (buffer_base64 file) (mimetype file) = inr c →
  (classification_rule ty c).1 = true →
  submitForVerification env (buffer_base64 file) (mimetype file)
    (js_or (code <$> country c) "PHL")
    (js_or (code <$> documentType c) (DocumentType_name ty))
    ("doc-" ++ i) = inl e →
  let rw := run (uploadHandler env req) s in
  rw.1 = inr unclassifiable_response ∧
  trace rw.2 =
    [DbFindUnique uid ty; DbUpsert uid ty; CallClassify; DbUpdate i;
     DbUpdate i; CallSubmit ("doc-" ++ i); DbUpdate i; DbUpdate i] ∧
  ∃ d, db rw.2 !! (uid, ty) = Some d ∧ doc_id d = i ∧
       status d = CLASSIFICATION_FAILED ∧
       errorMessage d = Some unclassifiable_message ∧
       documentVerifyId d = None ∧
       classificationResult d = Some (ClassificationResult_to_json c).
Proof.
  intros req i Hty Hmime Hsize Hnd Hclassify Hrule Hsubmit rw.
  unfold rw, req. rewrite id_upload_run by done.
  rewrite upload_id_document_run. cbv zeta. cbn [db].
  fold i. rewrite Hclassify, Hrule. simpl (negb _). cbv iota.
  rewrite Hsubmit. cbn [fst snd db trace app].
  split_and!; [done..|].
  eexists. split; [solve_row|]. split_and!; try done.
  unfold id_row, upserted; by destruct (s !! (uid, ty)).
Qed.

(** X11: when the classify call throws, the row of the identity document
    ends [CLASSIFICATION_FAILED] with the could-not-classify message, the
    answer is the 400 of an unclassifiable document, and neither a
    submission call nor a further update is made. *)
Theorem id_upload_classify_failure env s uid ty file e :
  let req := {| up_userId := uid; up_file := Some file;
                up_documentType := Some (DocumentType_name ty) |} in
  let i := doc_id (id_row env s uid ty file) in
  ty = PASSPORT ∨ ty = DRIVERS_LICENCE →
  mimetype file ∈ imageMimes →
  (file_size file ≤ 5 * 1024 * 1024)%N →
  status <$> s !! (uid, ty) ≠ Some DONE →
  classifyDocument env (buffer_base64 file) (mimetype file) = inl e →
  let rw := run (uploadHandler env req) s in
  rw.1 = inr unclassifiable_response ∧
  trace rw.2 =
    [DbFindUnique uid ty; DbUpsert uid ty; CallClassify; DbUpdate i] ∧
  ∃ d, db rw.2 !! (uid, ty) = Some d ∧ doc_id d = i ∧
       status d = CLASSIFICATION_FAILED ∧
       errorMessage d = Some unclassifiable_message ∧
       documentVerifyId d = None ∧ verificationResult d = None.
Proof.
  intros req i Hty Hmime Hsize Hnd Hclassify rw.
  unfold rw, req. rewrite id_upload_run by done.
  rewrite upload_id_document_run. cbv zeta. cbn [db].
  fold i. rewrite Hclassify. cbn [fst snd db trace app].
  split_and!; [done..|].
  eexists. split; [solve_row|]. split_and!; try done.
  all: unfold id_row, upserted; by destruct (s !! (uid, ty)).
Qed.

Lemma resume_upload_run env s uid file :
  status <$> s !! (uid, RESUME) ≠ Some DONE →
  run (uploadHandler env
         {| up_userId := uid; up_file := Some file;
            up_documentType := Some "RESUME" |}) s =
  upload_resume env uid RESUME file
    {| db := s; trace := [DbFindUnique uid RESUME] |}.
Proof.
  intros Hnd. rewrite (uploadHandler_accepted env s _ file RESUME); try done.
  by apply (upload_request_valid uid file RESUME).
Qed.

(** X12: a résumé whose submission succeeds ends [PROCESSING] with the
    verification id the gateway gave and no error message; it was
    submitted with country PHL and type OTHER under the reference made of
    the row's id, and the answer is 200. *)
Theorem resume_upload_processing env s uid file r :
  let req := {| up_userId := uid; up_file := Some file;
                up_documentType := Some "RESUME" |} in
  let i := doc_id (resume_row env s uid file) in
  status <$> s !! (uid, RESUME) ≠ Some DONE →
  submitForVerification env (buffer_base64 file) (mimetype file)
    "PHL" "OTHER" ("doc-" ++ i) = inr r →
  let rw := run (uploadHandler env req) s in
  (∃ summary,
     rw.1 = inr (reply 200
                   (UploadBody "Resume uploaded and submitted for verification"
                      summary)) ∧
     sum_status summary = Some PROCESSING ∧
     sum_documentVerifyId summary = Some (Some (submit_documentVerifyId r))) ∧
  trace rw.2 =
    [DbFindUnique uid RESUME; DbUpsert uid RESUME; DbUpdate i;
     CallSubmit ("doc-" ++ i); DbUpdate i; DbFindById i] ∧
  ∃ d, db rw.2 !! (uid, RESUME) = Some d ∧ doc_id d = i ∧
       status d = PROCESSING ∧
       documentVerifyId d = Some (submit_documentVerifyId r) ∧
       errorMessage d = None ∧ verificationResult d = None.
Proof.
  intros req i Hnd Hsubmit rw.
  unfold rw, req. rewrite resume_upload_run by done.
  rewrite upload_resume_run. cbv zeta. cbn [db].
  fold i. rewrite Hsubmit. cbn [fst snd db trace app].
  set (s2 := update_where_id i (processing_data r) _ _).
  assert (∃ d0, s2 !! (uid, RESUME) = Some d0 ∧
                d0 = apply_data (processing_data r) (now env)
                       (apply_data submitting_data (now env)
                          (resume_row env s uid file))) as (d & Hrow & Hd).
  { eexists. split; [unfold s2; solve_row|done]. }
  split_and!.
  - destruct (find_by_id_is_Some _ _ _ Hrow) as [kd Hkd].
    rewrite Hd in Hkd. change (doc_id _) with i in Hkd. rewrite Hkd.
    destruct (find_by_id_updated _ _ _ _ _ Hkd) as [d0 Hd0].
    eexists. split; [reflexivity|]. cbn. by rewrite Hd0.
  - done.
  - exists d. split; [done|]. rewrite Hd. split_and!; try done.
    all: unfold resume_row, upserted; by destruct (s !! (uid, RESUME)).
Qed.

(** An upload that passes validation and meets a [DONE] row. *)
Lemma uploadHandler_conflict env s req file ty old :
  up_file req = Some file →
  up_documentType req = Some (DocumentType_name ty) →
  ¬ InvalidInput req →
  s !! (up_userId req, ty) = Some old → status old = DONE →
  run (uploadHandler env req) s =
  (inr (reply 409 (ErrorBody conflict_message)),
   {| db := s; trace := [DbFindUnique (up_userId req) ty] |}).
Proof.
  intros Hf Hty Hv Hold Hst.
  destruct (valid_input_tests req file ty Hv Hf Hty) as [Hm Hsz].
  unfold run, uploadHandler. rewrite try_catch_run, Hf, Hty. simpl.
  rewrite parse_DocumentType_name, Hm, Hsz, bind_run, findUnique_run.
  simpl. rewrite Hold. simpl. by rewrite Hst.
Qed.

(** X13: a résumé is never classified: whatever the gateway answers, an
    upload of a résumé makes no classify call and the row has the
    [classificationResult] it had before ([null] when the row is new). *)
Theorem resume_never_classified env s uid file :
  let req := {| up_userId := uid; up_file := Some file;
                up_documentType := Some "RESUME" |} in
  let rw := run (uploadHandler env req) s in
  (CallClassify ∉ trace rw.2) ∧
  ∀ d, db rw.2 !! (uid, RESUME) = Some d →
       classificationResult d =
       match s !! (uid, RESUME) with
       | Some old => classificationResult old
       | None => None
       end.
Proof.
  intros req rw. unfold rw, req.
  destruct (decide (status <$> s !! (uid, RESUME) = Some DONE)) as [Hd|Hnd].
  - destruct (s !! (uid, RESUME)) as [old|] eqn:Hold; [|done].
    injection Hd as Hd.
    rewrite (uploadHandler_conflict env s _ file RESUME old); try done.
    + cbn [fst snd db trace]. split; [by rewrite list_elem_of_singleton|].
      intros d. rewrite Hold. by intros [= <-].
    + by apply (upload_request_valid uid file RESUME).
  - rewrite resume_upload_run by done. rewrite upload_resume_run.
    cbv zeta. cbn [db].
    destruct (submitForVerification _ _ _ _ _ _) as [e|r];
      cbn [fst snd db trace app].
    all: split;
      [ rewrite !elem_of_cons; intros Hin;
        repeat (destruct Hin as [Hin|Hin]; [done|]);
        by apply elem_of_nil in Hin
      | intros d; erewrite lookup_update_where_id_hit; [|solve_row|done];
        intros [= <-]; unfold resume_row, upserted;
        by destruct (s !! (uid, RESUME)) ].
Qed.

(** X14: an accepted upload replaces the row in place: the row keeps the
    id and the creation time it had (a new row gets the id and the time of
    the request), carries the name and media type of the new file and the
    time of the request as [updatedAt], whatever way the upload takes. *)
Theorem upload_replaces_in_place env req s file ty :
  up_file req = Some file →
  up_documentType req = Some (DocumentType_name ty) →
  ¬ InvalidInput req →
  status <$> s !! (up_userId req, ty) ≠ Some DONE →
  ∃ d,
    db (run (uploadHandler env req) s).2 !! (up_userId req, ty) = Some d ∧
    doc_id d = match s !! (up_userId req, ty) with
               | Some old => doc_id old | None => newId env
               end ∧
    createdAt d = match s !! (up_userId req, ty) with
                  | Some old => createdAt old | None => now env
                  end ∧
    fileName d = originalname file ∧ mimeType d = mimetype file ∧
    updatedAt d = now env.
Proof.
  intros Hf Hty Hv Hnd.
  rewrite (uploadHandler_accepted env s req file ty) by done.
  pose proof (upload_branch_effect env (up_userId req) ty file
                {| db := s; trace := [DbFindUnique (up_userId req) ty] |})
    as [_ (dts & Hscript & Hdb)].
  cbn [db] in Hdb. rewrite Hdb.
  eexists. split.
  { apply lookup_apply_updates_hit; [apply lookup_insert_eq|done]. }
  rewrite doc_id_row_after, upload_row_doc_id. split; [done|].
  assert (∀ d0 : Document,
            createdAt (row_after (now env) dts d0) = createdAt d0 ∧
            fileName (row_after (now env) dts d0) = fileName d0 ∧
            mimeType (row_after (now env) dts d0) = mimeType d0 ∧
            updatedAt (row_after (now env) dts d0) = now env) as Hkeep.
  { intros d0. destruct Hscript; by cbn. }
  destruct (Hkeep (upload_row env s (up_userId req) ty file))
    as (-> & -> & -> & ->).
  unfold upload_row, id_row, resume_row, upserted.
  destruct ty; cbn; by destruct (s !! _).
Qed.

(** ** The list endpoint *)

#[global] Instance newer_first_total : Total newer_first.
Proof. intros a b. unfold newer_first. lia. Qed.

Lemma rows_of_user_length uid s : (length (rows_of_user uid s) ≤ 3)%nat.
Proof.
  unfold rows_of_user. cbn.
  destruct (s !! (uid, PASSPORT)), (s !! (uid, DRIVERS_LICENCE)),
    (s !! (uid, RESUME)); cbn; lia.
Qed.

(** X15: the list endpoint answers with the requester's documents and no
    others: an item is listed exactly when it is the selection of a row
    stored under the requester; the items are ordered newest first, and
    there are three at most. *)
Theorem list_documents_of_owner uid s :
  (∀ item,
     item ∈ listDocuments uid s ↔
     ∃ ty d, s !! (uid, ty) = Some d ∧ item = select_list_item (ty, d)) ∧
  Sorted (λ a b, (item_createdAt b ≤ item_createdAt a)%N)
    (listDocuments uid s) ∧
  (length (listDocuments uid s) ≤ 3)%nat.
Proof.
  unfold listDocuments, find_many. split_and!.
  - intros item. rewrite list_elem_of_fmap. split.
    + intros ([ty d] & -> & Hin).
      rewrite merge_sort_Permutation in Hin.
      apply elem_of_rows_of_user in Hin. by exists ty, d.
    + intros (ty & d & Hrow & ->). exists (ty, d). split; [done|].
      rewrite merge_sort_Permutation. by apply elem_of_rows_of_user.
  - apply (Sorted_fmap _ newer_first); [done|].
    apply (Sorted_merge_sort newer_first).
  - rewrite length_fmap, merge_sort_Permutation. apply rows_of_user_length.
Qed.

(** ** The validators *)

(** X16: no classification passes both validators, and one that lacks the
    country or the document type passes neither, so that a scan can be
    accepted for one category at most. *)
Theorem validators_exclusive c :
  isValidPhilippinesPassport c && isValidPhilippinesDriversLicence c = false ∧
  (country c = None ∨ documentType c = None →
   isValidPhilippinesPassport c = false ∧
   isValidPhilippinesDriversLicence c = false) ∧
  ((classification_rule PASSPORT c).1 = true →
   (classification_rule DRIVERS_LICENCE c).1 = false).
Proof.
  unfold isValidPhilippinesPassport, isValidPhilippinesDriversLicence.
  cbn [classification_rule fst]. split_and!.
  - destruct (bool_decide (_ = Some "PASSPORT")) eqn:Hp;
      [|by rewrite andb_false_r].
    apply bool_decide_eq_true in Hp. rewrite Hp.
    rewrite (bool_decide_eq_false_2 (Some "PASSPORT" = Some "DRIVERS_LICENCE")) by done.
    by rewrite !andb_false_r.
  - intros [-> | ->]; cbn.
    + by rewrite !(bool_decide_eq_false_2 (None = Some _)).
    + rewrite !(bool_decide_eq_false_2 (None = Some _)) by done.
      by rewrite !andb_false_r.
  - unfold isValidPhilippinesPassport, isValidPhilippinesDriversLicence.
    rewrite andb_true_iff, !bool_decide_eq_true. intros [_ ->].
    rewrite (bool_decide_eq_false_2 (Some "PASSPORT" = Some "DRIVERS_LICENCE")) by done.
    by rewrite andb_false_r.
Qed.

(** ** What multer lets through and what the handler then refuses *)

Lemma fileFilter_not_image file :
  fileFilter file = true →
  mimetype file ∉ imageMimes ↔ mimetype file = "application/pdf".
Proof.
  unfold fileFilter, allowedMimes, imageMimes. intros Hok.
  apply bool_decide_eq_true in Hok.
  rewrite !elem_of_cons in Hok. rewrite !not_elem_of_cons. split.
  - intros (? & ? & ? & _). destruct Hok as [?|[?|[?|[?|Hnil]]]]; try done.
    by apply elem_of_nil in Hnil.
  - intros ->. split_and!; try done. apply not_elem_of_nil.
Qed.

(** An upload that passes validation looks up the existing row first. *)
Lemma uploadHandler_valid_trace env req s file ty :
  up_file req = Some file →
  up_documentType req = Some (DocumentType_name ty) →
  ¬ InvalidInput req →
  ∃ evs,
    trace (run (uploadHandler env req) s).2 =
    DbFindUnique (up_userId req) ty :: evs.
Proof.
  intros Hf Hty Hv.
  destruct (decide (status <$> s !! (up_userId req, ty) = Some DONE))
    as [Hdone|Hnd].
  - destruct (s !! (up_userId req, ty)) as [old|] eqn:Hold; [|done].
    rewrite (uploadHandler_conflict env s req file ty old); try done.
    + by exists [].
    + by simplify_eq/=.
  - rewrite (uploadHandler_accepted env s req file ty) by done.
    destruct (is_id_document ty) eqn:Hid.
    + rewrite upload_id_document_run. cbv zeta.
      destruct (classifyDocument _ _ _); [by eexists|].
      destruct (negb _); [by eexists|].
      destruct (submitForVerification _ _ _ _ _ _); by eexists.
    + apply is_id_document_false in Hid as ->.
      rewrite upload_resume_run. cbv zeta.
      destruct (submitForVerification _ _ _ _ _ _); by eexists.
Qed.

Lemma invalid_after_multer req file ty :
  up_file req = Some file →
  up_documentType req = Some (DocumentType_name ty) →
  fileFilter file = true →
  InvalidInput req ↔
  (ty = PASSPORT ∨ ty = DRIVERS_LICENCE) ∧
  (mimetype file = "application/pdf" ∨ (5 * 1024 * 1024 < file_size file)%N).
Proof.
  intros Hf Hty Hok. split.
  - intros [Hcat | f t Hf' Ht Hid Hm | f t Hf' Ht Hid Hsz].
    + by destruct (Hcat ty).
    + assert (t = ty) as -> by (destruct t, ty; by simplify_eq).
      simplify_eq. split; [done|]. left. by apply fileFilter_not_image.
    + assert (t = ty) as -> by (destruct t, ty; by simplify_eq).
      simplify_eq. split; [done|]. by right.
  - intros [Hid [Hpdf|Hsz]].
    + eapply not_an_image; [done..|]. by apply fileFilter_not_image.
    + by eapply too_large.
Qed.

(** X24: of the uploads multer lets through with a known category, the
    route refuses as invalid input exactly the identity documents that
    are a PDF or above 5MB: for these the handler answers 400 before any
    access to the table, with the message about the media type for a PDF
    and the message about the size otherwise; every other such upload
    gets as far as the lookup of the existing row.  A résumé is never
    refused for its media type or size. *)
Theorem multer_then_validation production env req s file ty :
  up_file req = Some file →
  up_documentType req = Some (DocumentType_name ty) →
  accepted_by_multer (Upload req) →
  let rw := run (uploadRoute production env req) s in
  let refused :=
    (ty = PASSPORT ∨ ty = DRIVERS_LICENCE) ∧
    (mimetype file = "application/pdf" ∨
     (5 * 1024 * 1024 < file_size file)%N) in
  (InvalidInput req ↔ refused) ∧
  (refused →
   rw = (inr (reply 400
                (ErrorBody
                   (if decide (mimetype file = "application/pdf")
                    then "Passport and Driver's Licence must be uploaded as JPEG or PNG images. PDF files are not supported for ID documents."
                    else "Image file is too large. Please upload an image smaller than 5MB."))),
         {| db := s; trace := [] |})) ∧
  (¬ refused →
   ∃ evs, trace rw.2 = DbFindUnique (up_userId req) ty :: evs) ∧
  (ty = RESUME →
   ∃ evs, trace rw.2 = DbFindUnique (up_userId req) ty :: evs).
Proof.
  intros Hf Hty Hok rw refused.
  assert (fileFilter file = true) as Hfilter.
  { unfold accepted_by_multer in Hok. rewrite Hf in Hok. by destruct Hok. }
  pose proof (invalid_after_multer req file ty Hf Hty Hfilter) as Hiff.
  assert (rw = run (uploadHandler env req) s) as Hrw.
  { unfold rw. rewrite uploadRoute_run.
    apply multer_refusal_None in Hok. by rewrite Hok. }
  assert (¬ refused →
          ∃ evs, trace rw.2 = DbFindUnique (up_userId req) ty :: evs) as Hpass.
  { intros Hno. rewrite Hrw.
    apply (uploadHandler_valid_trace env req s file ty); [done|done|].
    intros Hinv. by apply Hno, Hiff. }
  split_and!; [done| |done|].
  - intros [Hid Hwhy]. rewrite Hrw. unfold run, uploadHandler.
    rewrite try_catch_run, Hf, Hty. simpl. rewrite parse_DocumentType_name.
    apply is_id_document_true in Hid. rewrite Hid. simpl.
    destruct (decide (mimetype file = "application/pdf")) as [Hpdf|Hnpdf].
    + rewrite bool_decide_eq_false_2; [done|].
      by apply fileFilter_not_image.
    + rewrite bool_decide_eq_true_2.
      2: { destruct (decide (mimetype file ∈ imageMimes)) as [|Hout]; [done|].
           by apply fileFilter_not_image in Hout. }
      destruct Hwhy as [?|Hsz]; [done|].
      apply N.ltb_lt in Hsz. simpl. by rewrite Hsz.
  - intros ->. apply Hpass. by intros [[?|?] _].
Qed.

(** ** The document card and the server *)

(** X17: the colour of the status badge follows the flags of the card for
    every status string: green exactly when the card takes the document
    for done, blue exactly when for processing, red exactly when for
    failed; the three flags exclude one another, and the upload control is
    offered exactly when nothing is uploading and the document is neither
    processing nor done. *)
Theorem badge_colour_follows_flags (st : string) (uploading : bool) :
  (getStatusColor st = "text-green-600 bg-green-50" ↔ isDone (Some st) = true) ∧
  (getStatusColor st = "text-blue-600 bg-blue-50" ↔
   isProcessing (Some st) = true) ∧
  (getStatusColor st = "text-red-600 bg-red-50" ↔ isFailed (Some st) = true) ∧
  isDone (Some st) && isProcessing (Some st) = false ∧
  isDone (Some st) && isFailed (Some st) = false ∧
  isProcessing (Some st) && isFailed (Some st) = false ∧
  (canUpload uploading (Some st) = true ↔
   uploading = false ∧ isProcessing (Some st) = false ∧
   isDone (Some st) = false).
Proof.
  unfold getStatusColor, isDone, isProcessing, isFailed, canUpload.
  split_and!.
  7: { rewrite !andb_true_iff, !negb_true_iff. tauto. }
  all: repeat case_decide; try congruence; cbn; try done.
  all: split; intros; congruence.
Qed.

Lemma isDone_name st :
  isDone (Some (DocumentStatus_name st)) = true ↔ st = DONE.
Proof. by destruct st. Qed.

Lemma canUpload_name st :
  canUpload false (Some (DocumentStatus_name st)) = true →
  st ≠ DONE.
Proof. by destruct st. Qed.

(** X18: the card does not lead into a refusal: when it offers the upload
    control for a category, a valid upload for that category is not
    answered 409, and when it shows the result button for a stored
    document, the result endpoint answers 200 with that document. *)
Theorem card_and_server_agree env s req file ty :
  up_file req = Some file →
  up_documentType req = Some (DocumentType_name ty) →
  ¬ InvalidInput req →
  (canUpload false (card_status s (up_userId req) ty) = true →
   ∃ resp, (run (uploadHandler env req) s).1 = inr resp ∧
           http_status resp ≠ 409) ∧
  (isDone (card_status s (up_userId req) ty) = true →
   ∀ d, s !! (up_userId req, ty) = Some d →
        find_first (doc_id d) (up_userId req) s = Some (ty, d) →
        (run (resultHandler (up_userId req) (doc_id d)) s).1 =
        inr (reply 200 (ResultBody (select_result ty d)))).
Proof.
  intros Hf Hty Hv. unfold card_status. split.
  - intros Hcan.
    assert (status <$> s !! (up_userId req, ty) ≠ Some DONE) as Hnd.
    { destruct (s !! (up_userId req, ty)) as [d|]; [|done]. cbn in *.
      apply canUpload_name in Hcan. congruence. }
    rewrite (uploadHandler_accepted env s req file ty) by done.
    pose proof (upload_branch_effect env (up_userId req) ty file
                  {| db := s; trace := [DbFindUnique (up_userId req) ty] |})
      as [(resp & Hresp & Hcode) _].
    exists resp. split; [done|]. destruct Hcode as [-> | ->]; done.
  - intros Hdone d Hrow Hfound. rewrite Hrow in Hdone. cbn in Hdone.
    apply isDone_name in Hdone.
    rewrite resultHandler_run, Hfound. cbn. by rewrite Hdone.
Qed.

(** ** Accounts *)

(** X19: a registration without a username or a password (missing or
    empty), with a username of fewer than three characters or a password of
    fewer than six, is answered 400 before the table is read: no account is
    created, nothing is hashed and no token is issued. *)
Theorem register_invalid_rejected aenv req (us : Users) :
  truthy (cred_username req) = false ∨ truthy (cred_password req) = false ∨
  (String.length (default "" (cred_username req)) < 3)%nat ∨
  (String.length (default "" (cred_password req)) < 6)%nat →
  ∃ msg,
    registerHandler aenv req us = auth_reply 400 (AuthError msg) us [].
Proof.
  intros Hbad. unfold registerHandler.
  destruct (truthy (cred_username req)) eqn:Hu; [|by eexists].
  destruct (truthy (cred_password req)) eqn:Hp; [|by eexists].
  cbn [negb orb].
  destruct (String.length (default "" (cred_username req)) <? 3)%nat
    eqn:Hlu; [by eexists|].
  destruct (String.length (default "" (cred_password req)) <? 6)%nat
    eqn:Hlp; [by eexists|].
  apply Nat.ltb_ge in Hlu, Hlp. destruct Hbad as [?|[?|[?|?]]]; [done..|lia|lia].
Qed.

(** X20: a registration never changes an existing account: every account
    of the table is in the table after the request as it was, and when the
    username is taken the answer is 409, the table is the one it was and
    nothing is hashed. *)
Theorem register_keeps_accounts aenv req (us : Users) :
  let out := registerHandler aenv req us in
  (∀ name user, us !! name = Some user → out.1.2 !! name = Some user) ∧
  (∀ name password existing,
     cred_username req = Some name → cred_password req = Some password →
     (3 ≤ String.length name)%nat → (6 ≤ String.length password)%nat →
     us !! name = Some existing →
     out = auth_reply 409 (AuthError "Username already taken") us
             [UserFindUnique name]).
Proof.
  cbv zeta. split.
  - intros name user Hrow. unfold registerHandler.
    destruct (negb _ || negb _); [done|].
    destruct (String.length (default "" (cred_username req)) <? 3)%nat;
      [done|].
    destruct (String.length (default "" (cred_password req)) <? 6)%nat;
      [done|].
    destruct (us !! default "" (cred_username req)) as [existing|] eqn:Hex;
      [done|].
    assert (default "" (cred_username req) ≠ name) as Hne by congruence.
    destruct (bcrypt_hash aenv _); [done|].
    destruct (generateToken aenv _); cbn; by rewrite lookup_insert_ne.
  - intros name password existing Hu Hp Hlu Hlp Hrow. unfold registerHandler.
    rewrite Hu, Hp. cbn [truthy default from_option id].
    assert (name ≠ "") as Hn by (intros ->; cbn in Hlu; lia).
    assert (password ≠ "") as Hpw by (intros ->; cbn in Hlp; lia).
    rewrite !bool_decide_eq_false_2 by done. cbn [negb orb].
    apply Nat.ltb_ge in Hlu, Hlp. rewrite Hlu, Hlp. by rewrite Hrow.
Qed.

(** X21: registration and login fit together: after a registration that
    is answered 201 the table holds the account under the username, with
    the hash bcrypt gave as password, and a login with the same username
    and password, when bcrypt accepts the password for that hash and a
    token is issued, is answered 200 with the same id and username. *)
Theorem register_then_login aenv aenv' req (us : Users) userId name token token' :
  let out := registerHandler aenv req us in
  out.1.1 = {| auth_status := 201; auth_body := AuthSession userId name token |} →
  (∀ password hashed,
     cred_password req = Some password →
     bcrypt_hash aenv password = inr hashed →
     bcrypt_compare aenv' password hashed = inr true) →
  generateToken aenv' userId = inr token' →
  (∃ user password,
     out.1.2 !! name = Some user ∧ cred_username req = Some name ∧
     cred_password req = Some password ∧
     user_id user = userId ∧ bcrypt_hash aenv password = inr (user_password user)) ∧
  loginHandler aenv' req out.1.2 =
    auth_reply 200 (AuthSession userId name token') out.1.2
      [UserFindUnique name; BcryptCompare; TokenIssued userId].
Proof.
  cbv zeta. unfold registerHandler, loginHandler.
  destruct (cred_username req) as [u|] eqn:Hu; [|done].
  destruct (cred_password req) as [p|] eqn:Hp;
    [|by rewrite orb_true_r].
  cbn [default from_option id].
  destruct (negb (truthy (Some u)) || negb (truthy (Some p))) eqn:Hfalsy;
    [done|].
  destruct (String.length u <? 3)%nat; [done|].
  destruct (String.length p <? 6)%nat; [done|].
  destruct (us !! u) as [existing|] eqn:Hex; [done|].
  destruct (bcrypt_hash aenv p) as [e|hashed] eqn:Hhash; [done|].
  cbn [user_id user_username].
  destruct (generateToken aenv (newUserId aenv)) as [e|tok] eqn:Htok;
    cbn [auth_reply fst snd]; [done|].
  intros [= <- <- <-] Hcompare Htoken'.
  rewrite lookup_insert_eq.
  cbn [user_password user_id user_username].
  rewrite (Hcompare p hashed) by done. rewrite Htoken'.
  split; [|done]. eexists _, p. by split_and!.
Qed.

(** X22: a login does not tell an unknown username from a wrong password:
    both are answered 401 with the same body; and no login, whatever its
    answer, changes the table. *)
Theorem login_hides_accounts aenv req (us : Users) :
  (loginHandler aenv req us).1.2 = us ∧
  ∀ name password,
    cred_username req = Some name → name ≠ "" →
    cred_password req = Some password → password ≠ "" →
    (us !! name = None ∨
     ∃ user, us !! name = Some user ∧
             bcrypt_compare aenv password (user_password user) = inr false) →
    (loginHandler aenv req us).1.1 =
    {| auth_status := 401;
       auth_body := AuthError "Invalid username or password" |}.
Proof.
  split.
  - unfold loginHandler. repeat case_match; done.
  - intros name password Hu Hn Hp Hpw Hcase. unfold loginHandler.
    rewrite Hu, Hp. cbn [truthy default from_option id].
    rewrite !bool_decide_eq_false_2 by done. cbn [negb orb].
    destruct Hcase as [-> | (user & -> & ->)]; done.
Qed.

(** ** The further properties at concrete requests *)

(** A poll while the gateway is still verifying. *)
Lemma status_without_terminal_answer_witness :
  run (statusHandler env_pending "alice" "doc-5") processing_store =
  (stored_status "doc-5" processing_passport,
   {| db := processing_store;
      trace := [DbFindFirst "doc-5" "alice"; CallPoll "ver-5"] |}).
Proof.
  assert (find_first "doc-5" "alice" processing_store =
          Some (PASSPORT, processing_passport)) as Hfound by (by vm_compute).
  destruct (status_without_terminal_answer env_pending processing_store
              "alice" "doc-5" PASSPORT processing_passport Hfound)
    as [_ Hpoll].
  by apply (Hpoll "ver-5" pending_answer).
Defined.

(** The result right after the poll that finished the verification. *)
Lemma result_follows_status_witness :
  ∃ doc,
    (run (resultHandler "alice" "doc-5")
       (db (run (statusHandler env_verified "alice" "doc-5")
              processing_store).2)).1 =
    inr (reply 200 (ResultBody doc)) ∧
    res_id doc = "doc-5" ∧ res_status doc = DONE.
Proof.
  pose proof (result_follows_status env_verified processing_store "alice"
                "doc-5" "doc-5" DONE true) as H.
  cbv zeta in H.
  assert ((run (statusHandler env_verified "alice" "doc-5")
             processing_store).1 =
          inr (reply 200 (StatusBody "doc-5" DONE true))) as Hanswer
    by (by vm_compute).
  destruct (H Hanswer) as [_ (doc & Hdoc & Hid & Hst)].
  exists doc. split_and!; [exact Hdoc|exact Hid|exact Hst].
Defined.

Lemma skipped_resume_reachable :
  reachable (db (run (handle env_down (Upload resume_upload)) ∅).2).
Proof.
  apply reachable_step; [apply reachable_empty|]. by vm_compute.
Qed.

(** The row of a résumé whose submission failed is settled. *)
Lemma reachable_rows_settled_witness :
  ∃ d,
    db (run (handle env_down (Upload resume_upload)) ∅).2
      !! ("alice", RESUME) = Some d ∧
    settled d.
Proof.
  assert (∃ d, db (run (handle env_down (Upload resume_upload)) ∅).2
                 !! ("alice", RESUME) = Some d) as [d Hrow]
    by (by eexists; vm_compute).
  exists d. split; [exact Hrow|].
  exact (reachable_rows_settled _ ("alice", RESUME) d
           skipped_resume_reachable Hrow).
Defined.

Lemma processing_store_ids_unique : ids_unique processing_store.
Proof.
  intros k1 k2 d1 d2 H1 H2 _. unfold processing_store in *.
  apply lookup_singleton_Some in H1 as [<- _].
  by apply lookup_singleton_Some in H2 as [<- _].
Qed.

Lemma processing_store_fresh : fresh_id "doc-9" processing_store.
Proof.
  intros k d Hk. unfold processing_store in Hk.
  by apply lookup_singleton_Some in Hk as [_ <-].
Qed.

(** A new passport of alice leaves the rows of bob alone. *)
Lemma request_touches_own_row_witness :
  db (run (handle env_verified (Upload passport_upload))
        processing_store).2 !! ("bob", RESUME) =
  processing_store !! ("bob", RESUME).
Proof.
  destruct (request_touches_own_row env_verified (Upload passport_upload)
              processing_store processing_store_ids_unique
              processing_store_fresh) as (_ & Hother & _).
  by apply Hother.
Defined.

Lemma skipped_resume_reachable_fresh :
  reachable_fresh (db (run (handle env_down (Upload resume_upload)) ∅).2).
Proof.
  apply reachable_fresh_step; [apply reachable_fresh_empty|].
  intros k d. by rewrite lookup_empty.
Qed.

(** The table after a résumé whose submission failed. *)
Lemma reachable_fresh_error_profile_witness :
  ids_unique (db (run (handle env_down (Upload resume_upload)) ∅).2) ∧
  ∀ k d,
    db (run (handle env_down (Upload resume_upload)) ∅).2 !! k = Some d →
    error_profile d.
Proof.
  exact (reachable_fresh_error_profile _ skipped_resume_reachable_fresh).
Defined.

Lemma passport_scan_is_image : mimetype passport_scan ∈ imageMimes.
Proof. by apply (bool_decide_eq_true_1 _). Qed.

Lemma passport_scan_is_small :
  (file_size passport_scan ≤ 5 * 1024 * 1024)%N.
Proof. by vm_compute. Qed.

Lemma no_passport_yet :
  status <$> (∅ : Store) !! ("alice", PASSPORT) ≠ Some DONE.
Proof. by vm_compute. Qed.

(** A Philippine passport that goes through. *)
Lemma id_upload_processing_witness :
  ∃ d,
    db (run (uploadHandler env_verified passport_upload) ∅).2
      !! ("alice", PASSPORT) = Some d ∧
    status d = PROCESSING ∧ documentVerifyId d = Some "ver-5".
Proof.
  pose proof (id_upload_processing env_verified ∅ "alice" PASSPORT
                passport_scan philippine_passport
                {| submit_documentVerifyId := "ver-5";
                   submit_status := "PROCESSING" |}) as H.
  cbv zeta in H.
  destruct (H (or_introl eq_refl) passport_scan_is_image
              passport_scan_is_small no_passport_yet eq_refl eq_refl eq_refl)
    as (_ & _ & d & Hrow & _ & Hst & Hvid & _).
  exists d. split_and!; [exact Hrow|exact Hst|exact Hvid].
Defined.

(** A Philippine passport whose submission is refused. *)
Lemma id_upload_submit_failure_witness :
  ∃ d,
    db (run (uploadHandler env_submit_down passport_upload) ∅).2
      !! ("alice", PASSPORT) = Some d ∧
    status d = CLASSIFICATION_FAILED ∧
    errorMessage d = Some unclassifiable_message.
Proof.
  pose proof (id_upload_submit_failure env_submit_down ∅ "alice" PASSPORT
                passport_scan philippine_passport
                {| message := "Verification submission failed: 502" |}) as H.
  cbv zeta in H.
  destruct (H (or_introl eq_refl) passport_scan_is_image
              passport_scan_is_small no_passport_yet eq_refl eq_refl eq_refl)
    as (_ & _ & d & Hrow & _ & Hst & Hmsg & _).
  exists d. split_and!; [exact Hrow|exact Hst|exact Hmsg].
Defined.

(** A passport during an outage of the classifier. *)
Lemma id_upload_classify_failure_witness :
  ∃ d,
    db (run (uploadHandler env_down passport_upload) ∅).2
      !! ("alice", PASSPORT) = Some d ∧
    status d = CLASSIFICATION_FAILED ∧
    errorMessage d = Some unclassifiable_message.
Proof.
  pose proof (id_upload_classify_failure env_down ∅ "alice" PASSPORT
                passport_scan
                {| message := "Classification failed: 503" |}) as H.
  cbv zeta in H.
  destruct (H (or_introl eq_refl) passport_scan_is_image
              passport_scan_is_small no_passport_yet eq_refl)
    as (_ & _ & d & Hrow & _ & Hst & Hmsg & _).
  exists d. split_and!; [exact Hrow|exact Hst|exact Hmsg].
Defined.

(** A résumé that goes through. *)
Lemma resume_upload_processing_witness :
  ∃ d,
    db (run (uploadHandler env_verified resume_upload) ∅).2
      !! ("alice", RESUME) = Some d ∧
    status d = PROCESSING ∧ documentVerifyId d = Some "ver-5".
Proof.
  pose proof (resume_upload_processing env_verified ∅ "alice" resume_pdf
                {| submit_documentVerifyId := "ver-5";
                   submit_status := "PROCESSING" |}) as H.
  cbv zeta in H.
  assert (status <$> (∅ : Store) !! ("alice", RESUME) ≠ Some DONE) as Hnd
    by (by vm_compute).
  destruct (H Hnd eq_refl) as (_ & _ & d & Hrow & _ & Hst & Hvid & _).
  exists d. split_and!; [exact Hrow|exact Hst|exact Hvid].
Defined.

Lemma passport_upload_valid : ¬ InvalidInput passport_upload.
Proof.
  apply (upload_request_valid "alice" passport_scan PASSPORT). intros _.
  split; [apply passport_scan_is_image|apply passport_scan_is_small].
Qed.

Lemma rejected_store_not_done :
  status <$> rejected_store !! ("alice", PASSPORT) ≠ Some DONE.
Proof. by vm_compute. Qed.

(** A second passport after the first failed classification. *)
Lemma upload_replaces_in_place_witness :
  ∃ d,
    db (run (uploadHandler env_verified passport_upload) rejected_store).2
      !! ("alice", PASSPORT) = Some d ∧
    doc_id d = "doc-7" ∧ createdAt d = 10%N ∧
    fileName d = "passport.png" ∧ updatedAt d = 2000%N.
Proof.
  destruct (upload_replaces_in_place env_verified passport_upload
              rejected_store passport_scan PASSPORT eq_refl eq_refl
              passport_upload_valid rejected_store_not_done)
    as (d & Hrow & Hid & Hcreated & Hname & _ & Hupdated).
  exists d. split_and!;
    [exact Hrow|exact Hid|exact Hcreated|exact Hname|exact Hupdated].
Defined.

(** The card of a passport that failed classification offers a retry. *)
Lemma card_and_server_agree_witness :
  ∃ resp,
    (run (uploadHandler env_verified passport_upload) rejected_store).1 =
      inr resp ∧
    http_status resp ≠ 409.
Proof.
  destruct (card_and_server_agree env_verified rejected_store passport_upload
              passport_scan PASSPORT eq_refl eq_refl passport_upload_valid)
    as [Hcan _].
  apply Hcan. by vm_compute.
Defined.

(** A registration with a password of three characters. *)
Lemma register_invalid_rejected_witness :
  ∃ msg,
    registerHandler aenv_sample short_password ∅ =
    auth_reply 400 (AuthError msg) ∅ [].
Proof.
  apply (register_invalid_rejected aenv_sample short_password ∅).
  right. right. right. cbn. lia.
Defined.

(** carol registers and signs in. *)
Lemma register_then_login_witness :
  loginHandler aenv_sample carol (registerHandler aenv_sample carol ∅).1.2 =
  auth_reply 200 (AuthSession "user-1" "carol" "token-user-1")
    (registerHandler aenv_sample carol ∅).1.2
    [UserFindUnique "carol"; BcryptCompare; TokenIssued "user-1"].
Proof.
  pose proof (register_then_login aenv_sample aenv_sample carol ∅
                "user-1" "carol" "token-user-1" "token-user-1") as H.
  cbv zeta in H.
  assert (∀ password hashed,
            cred_password carol = Some password →
            bcrypt_hash aenv_sample password = inr hashed →
            bcrypt_compare aenv_sample password hashed = inr true)
    as Hcompare.
  { intros password hashed _ [= <-]. cbn. by rewrite bool_decide_eq_true_2. }
  destruct (H eq_refl Hcompare eq_refl) as [_ Hlogin]. exact Hlogin.
Defined.

Lemma verified_store_ids_unique : ids_unique verified_store.
Proof.
  intros k1 k2 d1 d2 H1 H2 _. unfold verified_store in *.
  apply lookup_singleton_Some in H1 as [<- _].
  by apply lookup_singleton_Some in H2 as [<- _].
Qed.

Lemma verified_store_fresh : fresh_id "doc-9" verified_store.
Proof.
  intros k d Hk. unfold verified_store in Hk.
  by apply lookup_singleton_Some in Hk as [_ <-].
Qed.

(** A second résumé does not touch the verified one. *)
Lemma done_row_is_final_witness :
  db (run (handle env_verified (Upload resume_upload)) verified_store).2
    !! ("alice", RESUME) = Some verified_resume.
Proof.
  apply (done_row_is_final env_verified (Upload resume_upload) verified_store
           ("alice", RESUME) verified_resume verified_store_ids_unique
           verified_store_fresh); reflexivity.
Defined.

(** A passport as a PDF passes multer and is refused by the handler. *)
Lemma multer_then_validation_witness :
  run (uploadRoute true env_verified passport_pdf_upload) ∅ =
  (inr (reply 400
          (ErrorBody "Passport and Driver's Licence must be uploaded as JPEG or PNG images. PDF files are not supported for ID documents.")),
   {| db := ∅; trace := [] |}).
Proof.
  pose proof (multer_then_validation true env_verified passport_pdf_upload ∅
                {| originalname := "passport.pdf";
                   mimetype := "application/pdf";
                   file_size := 204800; buffer_base64 := "JVBERi0xLjQ=" |}
                PASSPORT eq_refl eq_refl) as H.
  cbv zeta in H.
  assert (accepted_by_multer (Upload passport_pdf_upload)) as Hok
    by (by vm_compute).
  destruct (H Hok) as (_ & Hrefused & _).
  apply Hrefused. split; [by left|by left].
Defined.
